(** * Port-25 connectivity check: checkPort25.js

    A shallow embedding of the three functions exported by
    [functions/verifier/utils/checkPort25.js]

    - [classifyPort25Error]      (the error classifier),
    - [testSingleHost]           (the single-host prober),
    - [checkPort25Connectivity]  (the sequential multi-host check),

    followed by the properties of the specification that concern them. *)

From Stdlib Require Import String Ascii NArith ZArith Lia.
From stdpp Require Import base option numbers list.

Set Default Proof Using "Type".

(** ** JavaScript values used by the module *)

(** A JavaScript string is a sequence of UTF-16 code units. *)
Definition code_unit := N.
Definition jsstring := list code_unit.

(** [js "abc"] is the JavaScript literal ['abc'] (ASCII literals only). *)
Definition js (s : string) : jsstring :=
  (fun a => N_of_ascii a) <$> list_ascii_of_string s.
Arguments js s%_string.

(** The one non-ASCII character the specification's texts use. *)
Definition em_dash : code_unit := 8212%N.

(** [s.startsWith(p)] *)
Fixpoint startsWith (s p : jsstring) : bool :=
  match p, s with
  | [], _ => true
  | _ :: _, [] => false
  | c :: p', d :: s' => (c =? d)%N && startsWith s' p'
  end.

(** [s.includes(p)]: [p] occurs in [s] as a contiguous block. *)
Fixpoint includes (s p : jsstring) : bool :=
  startsWith s p ||
  match s with
  | [] => false
  | _ :: s' => includes s' p
  end.

(** WhiteSpace and LineTerminator code points of ECMAScript, the ones
    [String.prototype.trim] strips. *)
Definition isWhiteSpace (c : code_unit) : bool :=
  ((9 <=? c) && (c <=? 13) || (c =? 32) || (c =? 160) || (c =? 5760)
   || (8192 <=? c) && (c <=? 8202) || (c =? 8232) || (c =? 8233)
   || (c =? 8239) || (c =? 8287) || (c =? 12288) || (c =? 65279))%N.

Fixpoint trimStart (s : jsstring) : jsstring :=
  match s with
  | c :: s' => if isWhiteSpace c then trimStart s' else s
  | [] => []
  end.

Definition trimEnd (s : jsstring) : jsstring := reverse (trimStart (reverse s)).

(** [s.trim()] *)
Definition trim (s : jsstring) : jsstring := trimEnd (trimStart s).

(** A property that holds a string or is [undefined]. *)
Definition property := option jsstring.

(** [v === 'lit'] for a property [v]. *)
Definition strictEq (v : property) (lit : jsstring) : bool :=
  match v with
  | Some s => bool_decide (s = lit)
  | None => false
  end.

(** Truthiness of a string: every string but [''] is truthy. *)
Definition truthy (s : jsstring) : bool :=
  match s with
  | [] => false
  | _ :: _ => true
  end.

(** [v || d] where [v] is a string or [undefined] and [d] a string:
    [undefined] and [''] are falsy. *)
Definition orElse (v : property) (d : jsstring) : jsstring :=
  match v with
  | Some s => if truthy s then s else d
  | None => d
  end.

(** What a [throw] carries when a method is read off [undefined]:
    [TypeError m] is the TypeError of reading method [m]. *)
Inductive Exception :=
  | TypeError (method : jsstring).

(** Completion of a synchronous call. *)
Inductive Completion (A : Type) :=
  | Normal (a : A)
  | Throw (x : Exception).
Arguments Normal {A} a.
Arguments Throw {A} x.

(** State of a promise. *)
Inductive Promise (A E : Type) :=
  | Pending
  | Fulfilled (a : A)
  | Rejected (e : E).
Arguments Pending {A E}.
Arguments Fulfilled {A E} a.
Arguments Rejected {A E} e.

Definition settled {A E} (p : Promise A E) : bool :=
  match p with
  | Pending => false
  | _ => true
  end.

Definition isRejected {A E} (p : Promise A E) : bool :=
  match p with
  | Rejected _ => true
  | _ => false
  end.

(** ** Errors and their classification *)

(** The value a probe rejects with, as [classifyPort25Error] reads it:
    [error.code] and [error.message], each possibly [undefined].
    An [Error] object always has a string [message]. The value is taken
    to be an object: reading [code] off [undefined] or [null] is not
    modelled. *)
Module RawError.
Record t := make { code : property; message : property }.
End RawError.

(** [new Error(msg)] *)
Definition newError (msg : jsstring) : RawError.t :=
  RawError.make None (Some msg).

(** The [blocked] field: [true], [false] or the string ['unknown']. *)
Inductive Blocked :=
  | BlockedTrue
  | BlockedFalse
  | BlockedUnknown.

#[global] Instance Blocked_eq_dec : EqDecision Blocked.
Proof. solve_decision. Defined.

Module Classified.
Record t := make
  { blocked : Blocked;
    reason : jsstring;
    severity : jsstring;
    errorCode : property }.
End Classified.

(** [errorMessage.includes('timeout')]: a TypeError when [errorMessage]
    is [undefined]. *)
Definition messageIncludes (errorMessage : property) (p : jsstring)
  : Completion bool :=
  match errorMessage with
  | Some m => Normal (includes m p)
  | None => Throw (TypeError (js "includes"))
  end.

(** [classifyPort25Error(error)], rule for rule. The second rule is
    [errorCode === 'ETIMEDOUT' || errorMessage.includes('timeout')]:
    the right operand is evaluated only when the left one is false. *)
Definition classifyPort25Error (error : RawError.t)
  : Completion Classified.t :=
  let errorCode := RawError.code error in
  let errorMessage := RawError.message error in
  if strictEq errorCode (js "ECONNREFUSED") then
    Normal (Classified.make BlockedTrue
      (js "Connection refused - Port 25 likely blocked by firewall/ISP")
      (js "high") errorCode)
  else
    match (if strictEq errorCode (js "ETIMEDOUT") then Normal true
           else messageIncludes errorMessage (js "timeout")) with
    | Throw x => Throw x
    | Normal true =>
      Normal (Classified.make BlockedTrue
        (js "Connection timeout - Port 25 may be blocked or server unavailable")
        (js "medium") (Some (orElse errorCode (js "TIMEOUT"))))
    | Normal false =>
      if strictEq errorCode (js "ENETUNREACH")
         || strictEq errorCode (js "EHOSTUNREACH") then
        Normal (Classified.make BlockedTrue
          (js "Network unreachable - Check network configuration")
          (js "high") errorCode)
      else if strictEq errorCode (js "ENOTFOUND") then
        Normal (Classified.make BlockedFalse
          (js "DNS resolution failed - Server hostname not found")
          (js "low") errorCode)
      else if strictEq errorCode (js "EADDRINUSE") then
        Normal (Classified.make BlockedFalse
          (js "Address in use - Temporary issue, retry recommended")
          (js "low") errorCode)
      else
        Normal (Classified.make BlockedUnknown
          (orElse errorMessage (js "Unknown error"))
          (js "medium") (Some (orElse errorCode (js "UNKNOWN"))))
    end.

(** ** The single-host prober *)

(** What [testSingleHost] resolves with. *)
Module ProbeResult.
Record t := make
  { success : bool;
    responseTime : Z;
    banner : jsstring }.
End ProbeResult.

(** The events a [net.Socket] emits to the five registered handlers.
    [EvData text] carries the chunk already decoded, [data.toString()]. *)
Inductive SocketEvent :=
  | EvConnect
  | EvData (text : jsstring)
  | EvTimeout
  | EvError (err : RawError.t)
  | EvClose.

(** One attempt as the environment plays it: the clock reading when
    [testSingleHost] is entered, whether [socket.connect] throws, and the
    events delivered afterwards, each with the clock reading at delivery. *)
Module Attempt.
Record t := make
  { startTime : Z;
    connectThrows : option RawError.t;
    events : list (Z * SocketEvent) }.
End Attempt.

(** The variables the promise executor closes over, the promise itself,
    and the number of [socket.destroy()] calls made so far. *)
Module Probe.
Record t := make
  { smtpBanner : jsstring;
    connected : bool;
    promise : Promise ProbeResult.t RawError.t;
    destroyCalls : nat }.
End Probe.

(** [resolve(v)] and [reject(e)] of a promise executor: the first call
    settles the promise, later calls do nothing. *)
Definition resolve (v : ProbeResult.t) (st : Probe.t) : Probe.t :=
  match Probe.promise st with
  | Pending =>
    Probe.make (Probe.smtpBanner st) (Probe.connected st) (Fulfilled v)
      (Probe.destroyCalls st)
  | _ => st
  end.

Definition reject (e : RawError.t) (st : Probe.t) : Probe.t :=
  match Probe.promise st with
  | Pending =>
    Probe.make (Probe.smtpBanner st) (Probe.connected st) (Rejected e)
      (Probe.destroyCalls st)
  | _ => st
  end.

(** [socket.destroy()] *)
Definition destroy (st : Probe.t) : Probe.t :=
  Probe.make (Probe.smtpBanner st) (Probe.connected st) (Probe.promise st)
    (S (Probe.destroyCalls st)).

(** [socket.on('connect', ...)] *)
Definition onConnect (st : Probe.t) : Probe.t :=
  Probe.make (Probe.smtpBanner st) true (Probe.promise st)
    (Probe.destroyCalls st).

(** [socket.on('data', ...)]; [now] is [Date.now()] in the handler. *)
Definition onData (startTime now : Z) (data : jsstring) (st : Probe.t)
  : Probe.t :=
  let smtpBanner := trim data in
  let st := Probe.make smtpBanner (Probe.connected st) (Probe.promise st)
              (Probe.destroyCalls st) in
  if startsWith smtpBanner (js "220") then
    resolve (ProbeResult.make true (now - startTime) smtpBanner) (destroy st)
  else
    reject (newError (js "Invalid SMTP banner received: " ++ smtpBanner))
      (destroy st).

(** [socket.on('timeout', ...)] *)
Definition onTimeout (st : Probe.t) : Probe.t :=
  reject (newError (js "Connection timeout")) (destroy st).

(** [socket.on('error', ...)] *)
Definition onError (err : RawError.t) (st : Probe.t) : Probe.t :=
  reject err (destroy st).

(** [socket.on('close', ...)] *)
Definition onClose (st : Probe.t) : Probe.t :=
  if Probe.connected st && negb (truthy (Probe.smtpBanner st)) then
    reject (newError (js "Connection closed without receiving SMTP banner")) st
  else st.

Definition handle (startTime : Z) (st : Probe.t) (ev : Z * SocketEvent)
  : Probe.t :=
  match ev with
  | (_, EvConnect) => onConnect st
  | (now, EvData data) => onData startTime now data st
  | (_, EvTimeout) => onTimeout st
  | (_, EvError err) => onError err st
  | (_, EvClose) => onClose st
  end.

(** The state when the executor returns: handlers registered, and
    [socket.connect(25, hostname)] either went through or threw into the
    [catch], which rejects. *)
Definition executor (connectThrows : option RawError.t) : Probe.t :=
  let st := Probe.make [] false Pending 0 in
  match connectThrows with
  | Some err => reject err st
  | None => st
  end.

(** The executor followed by the delivered events, in order. *)
Definition deliver (startTime : Z) (st : Probe.t) (evs : list (Z * SocketEvent))
  : Probe.t :=
  foldl (handle startTime) st evs.

Definition runAttempt (a : Attempt.t) : Probe.t :=
  deliver (Attempt.startTime a) (executor (Attempt.connectThrows a))
    (Attempt.events a).

(** The environment of a run: what the socket opened for [(hostname,
    timeout)] does, and the clock readings of the multi-host check. *)
Module World.
Record t := make
  { socket : jsstring -> Z -> Attempt.t;
    startTime : Z;
    endTime : Z;
    timestamp : jsstring }.
End World.

(** [testSingleHost(hostname, timeout)]: the state of the returned promise
    once the environment has delivered all its events. *)
Definition testSingleHost (w : World.t) (hostname : jsstring) (timeout : Z)
  : Promise ProbeResult.t RawError.t :=
  Probe.promise (runAttempt (World.socket w hostname timeout)).

(** ** The multi-host check *)

Module Target.
Record t := make
  { host : jsstring;
    priority : Z;
    provider : jsstring }.
End Target.

Definition testTargets : list Target.t :=
  [ Target.make (js "mxshield.brandnav.io") 1 (js "BrandNav");
    Target.make (js "gmail-smtp-in.l.google.com") 2 (js "Google");
    Target.make (js "mx-biz.mail.am0.yahoodns.net") 3 (js "Yahoo");
    Target.make (js "mail.protection.outlook.com") 4 (js "Microsoft");
    Target.make (js "mx1.zoho.com") 5 (js "Zoho") ].

(** An element of the [errors] array. *)
Module Entry.
Record t := make
  { host : jsstring;
    provider : jsstring;
    error : property;
    reason : jsstring;
    severity : jsstring;
    blocked : Blocked }.
End Entry.

(** The report; [None] is [null]. *)
Module Report.
Record t := make
  { success : bool;
    port25Open : bool;
    canVerifyEmails : bool;
    testedHost : option jsstring;
    provider : option jsstring;
    attemptedHosts : list jsstring;
    responseTime : option Z;
    totalTime : Z;
    smtpBanner : option jsstring;
    error : option jsstring;
    errors : list Entry.t;
    recommendation : option jsstring;
    timestamp : jsstring }.
End Report.

Definition blockedText : jsstring :=
  js "Port 25 is blocked by your network/ISP. Consider using a VPS or cloud server with port 25 access for email verification.".
Definition unknownText : jsstring :=
  js "Unable to determine port 25 status. Some hosts returned unexpected errors. Check your network configuration.".
Definition dnsText : jsstring :=
  js "DNS or network issues detected. Verify your internet connection and DNS settings.".

(** The object returned from inside the loop. *)
Definition successReport (w : World.t) (target : Target.t)
    (attemptedHosts : list jsstring) (result : ProbeResult.t) : Report.t :=
  {| Report.success := true;
     Report.port25Open := true;
     Report.canVerifyEmails := true;
     Report.testedHost := Some (Target.host target);
     Report.provider := Some (Target.provider target);
     Report.attemptedHosts := attemptedHosts;
     Report.responseTime := Some (ProbeResult.responseTime result);
     Report.totalTime := World.endTime w - World.startTime w;
     Report.smtpBanner := Some (ProbeResult.banner result);
     Report.error := None;
     Report.errors := [];
     Report.recommendation := None;
     Report.timestamp := World.timestamp w |}.

(** The object returned after the loop. *)
Definition failureReport (w : World.t) (attemptedHosts : list jsstring)
    (errors : list Entry.t) : Report.t :=
  let allBlocked :=
    forallb (fun e => bool_decide (Entry.blocked e = BlockedTrue)) errors in
  let someUnknown :=
    existsb (fun e => bool_decide (Entry.blocked e = BlockedUnknown)) errors in
  {| Report.success := true;
     Report.port25Open := false;
     Report.canVerifyEmails := false;
     Report.testedHost := None;
     Report.provider := None;
     Report.attemptedHosts := attemptedHosts;
     Report.responseTime := None;
     Report.totalTime := World.endTime w - World.startTime w;
     Report.smtpBanner := None;
     Report.error := Some (js "All connection attempts failed");
     Report.errors := errors;
     Report.recommendation :=
       Some (if allBlocked then blockedText
             else if someUnknown then unknownText
             else dnsText);
     Report.timestamp := World.timestamp w |}.

(** The object pushed to [errors] in the [catch] block. *)
Definition errorEntry (target : Target.t) (classified : Classified.t)
  : Entry.t :=
  {| Entry.host := Target.host target;
     Entry.provider := Target.provider target;
     Entry.error := Classified.errorCode classified;
     Entry.reason := Classified.reason classified;
     Entry.severity := Classified.severity classified;
     Entry.blocked := Classified.blocked classified |}.

(** The [for (const target of testTargets)] loop with the two arrays it
    pushes to; [await] of a pending promise never resumes, a [throw] out
    of the [catch] block rejects the promise of the async function. *)
Fixpoint checkLoop (w : World.t) (targets : list Target.t)
    (attemptedHosts : list jsstring) (errors : list Entry.t)
  : Promise Report.t Exception :=
  match targets with
  | [] => Fulfilled (failureReport w attemptedHosts errors)
  | target :: rest =>
    let attemptedHosts := attemptedHosts ++ [Target.host target] in
    match testSingleHost w (Target.host target) 5000 with
    | Pending => Pending
    | Fulfilled result =>
      Fulfilled (successReport w target attemptedHosts result)
    | Rejected error =>
      match classifyPort25Error error with
      | Throw x => Rejected x
      | Normal classified =>
        checkLoop w rest attemptedHosts
          (errors ++ [errorEntry target classified])
      end
    end
  end.

(** [checkPort25Connectivity()] *)
Definition checkPort25Connectivity (w : World.t) : Promise Report.t Exception :=
  checkLoop w testTargets [] [].

(** ** Vocabulary of the properties *)

(** The codes the classifier has a rule for. *)
Definition recognisedCodes : list jsstring :=
  [ js "ECONNREFUSED"; js "ETIMEDOUT"; js "ENETUNREACH"; js "EHOSTUNREACH";
    js "ENOTFOUND"; js "EADDRINUSE" ].

(** The reason the specification's table gives for the timeout rule. *)
Definition tableTimeoutReason : jsstring :=
  js "Connection timeout " ++ [em_dash]
  ++ js " port 25 may be blocked or server unavailable".

Definition closedWithoutBanner : RawError.t :=
  newError (js "Connection closed without receiving SMTP banner").

(** The events whose handlers call [socket.destroy()]. *)
Definition destroys (ev : Z * SocketEvent) : bool :=
  match ev.2 with
  | EvData _ | EvTimeout | EvError _ => true
  | EvConnect | EvClose => false
  end.

Definition isClose (ev : Z * SocketEvent) : bool :=
  match ev.2 with
  | EvClose => true
  | _ => false
  end.

Definition isConnect (ev : Z * SocketEvent) : bool :=
  match ev.2 with
  | EvConnect => true
  | _ => false
  end.

(** The state of an attempt once the executor has run and the events
    [evs] have been delivered. *)
Definition stateAfter (a : Attempt.t) (evs : list (Z * SocketEvent))
  : Probe.t :=
  deliver (Attempt.startTime a) (executor (Attempt.connectThrows a)) evs.

(** While the promise is pending nothing has been destroyed and no
    banner has been stored. *)
Definition fresh (st : Probe.t) : Prop :=
  Probe.promise st = Pending ->
  Probe.destroyCalls st = 0 /\ Probe.smtpBanner st = [].

(** The probe of [target] failed and its error was classified into
    [entry]. *)
Definition failedWith (w : World.t) (target : Target.t) (entry : Entry.t)
  : Prop :=
  exists error classified,
    testSingleHost w (Target.host target) 5000 = Rejected error
    /\ classifyPort25Error error = Normal classified
    /\ entry = errorEntry target classified.

(** The value is an [Error] object, as [new Error(...)] builds and as
    [net.Socket] emits with ['error']: its [message] is a string, the
    empty string when none was given. *)
Definition isError (error : RawError.t) : Prop :=
  is_Some (RawError.message error).

(** The probe of [target] failed. *)
Definition failed (w : World.t) (target : Target.t) : Prop :=
  exists error, testSingleHost w (Target.host target) 5000 = Rejected error.

(** The attempted hosts whose probe was rejected, in attempt order. *)
Definition failedHosts (w : World.t) (attempted : list jsstring)
  : list jsstring :=
  filter (fun h => isRejected (testSingleHost w h 5000) = true) attempted.

(** ** Scenarios used to exercise the properties *)

Definition refused : RawError.t :=
  RawError.make (Some (js "ECONNREFUSED"))
    (Some (js "connect ECONNREFUSED 10.0.0.1:25")).

Definition notFound : RawError.t :=
  RawError.make (Some (js "ENOTFOUND")) (Some (js "DNS lookup failed")).

Definition notFoundSlow : RawError.t :=
  RawError.make (Some (js "ENOTFOUND")) (Some (js "DNS lookup timeout")).

Definition protocolError : RawError.t :=
  RawError.make (Some (js "EPROTO")) (Some []).

(** A rejection value that is not an [Error]: no [code], no [message]. *)
Definition bare : RawError.t := RawError.make None None.

Definition greeting : list (Z * SocketEvent) :=
  [ (10%Z, EvConnect);
    (20%Z, EvData (js "220 mx.google.com ESMTP ready" ++ [13%N; 10%N])) ].

Definition emits (err : RawError.t) : list (Z * SocketEvent) :=
  [ (10%Z, EvError err); (11%Z, EvClose) ].

Definition worldOf (behaviour : jsstring -> list (Z * SocketEvent)) : World.t :=
  {| World.socket := fun hostname _ => Attempt.make 0 None (behaviour hostname);
     World.startTime := 0;
     World.endTime := 100;
     World.timestamp := js "2026-01-01T00:00:00.000Z" |}.

(** The first target refuses the connection, every other one greets. *)
Definition fallbackWorld : World.t :=
  worldOf (fun hostname =>
    if bool_decide (hostname = js "mxshield.brandnav.io") then emits refused
    else greeting).

(** Every socket emits the same error. *)
Definition failingWorld (err : RawError.t) : World.t :=
  worldOf (fun _ => emits err).

(** A socket that times out, closes, and only then delivers a banner. *)
Definition lateBanner : list (Z * SocketEvent) :=
  [ (5000%Z, EvTimeout); (5001%Z, EvClose);
    (5002%Z, EvData (js "220 too late")) ].

(** The peer accepts the connection and closes it without a word. *)
Definition silentClose : list (Z * SocketEvent) :=
  [ (10%Z, EvConnect); (30%Z, EvClose) ].

(** The socket closes before it ever connected. *)
Definition closeOnly : list (Z * SocketEvent) :=
  [ (30%Z, EvClose) ].

(** ** The dashboard that triggers the check

    [DashboardLayout.tsx] calls the check through [verificationApi] and
    renders its result with [Port25Badge] and [Port25WarningBanner]. *)

(** [Port25Status]: ['checking' | 'open' | 'closed' | 'unknown']. *)
Inductive Port25Status :=
  | StatusChecking
  | StatusOpen
  | StatusClosed
  | StatusUnknown.

(** The icons [Port25Badge] imports from lucide-react. *)
Inductive Icon :=
  | Loader2
  | Wifi
  | WifiOff
  | HelpCircle.

Module BadgeConfig.
Record t := make
  { icon : Icon;
    label : jsstring;
    bgColor : jsstring;
    textColor : jsstring;
    borderColor : jsstring;
    iconClass : jsstring }.
End BadgeConfig.

(** [getBadgeConfig()] of [Port25Badge], with the [status] prop it closes
    over as argument; ['unknown'] shares the [default] branch. *)
Definition getBadgeConfig (status : Port25Status) : BadgeConfig.t :=
  match status with
  | StatusChecking =>
    BadgeConfig.make Loader2 (js "Checking...") (js "bg-blue-100")
      (js "text-blue-700") (js "border-blue-300") (js "animate-spin")
  | StatusOpen =>
    BadgeConfig.make Wifi (js "Port 25 Open") (js "bg-green-100")
      (js "text-green-700") (js "border-green-300") []
  | StatusClosed =>
    BadgeConfig.make WifiOff (js "Port 25 Blocked") (js "bg-red-100")
      (js "text-red-700") (js "border-red-300") []
  | StatusUnknown =>
    BadgeConfig.make HelpCircle (js "Check Port 25") (js "bg-gray-100")
      (js "text-gray-600") (js "border-gray-300") []
  end.

(** What [checkPort25Status] reads off the value [verificationApi.checkPort25()]
    resolves with. *)
Module Port25Result.
Record t := make
  { port25Open : bool;
    recommendation : option jsstring }.
End Port25Result.

(** The two fields as a report of [checkPort25Connectivity] carries them. *)
Definition resultOfReport (report : Report.t) : Port25Result.t :=
  {| Port25Result.port25Open := Report.port25Open report;
     Port25Result.recommendation := Report.recommendation report |}.

Inductive Toast :=
  | ToastSuccess (msg : jsstring)
  | ToastError (msg : jsstring).

(** The state hooks of [DashboardLayout] and the effects its handlers have
    on the outside: toasts shown, routes navigated to, lines logged with
    [console.error] (their first argument). *)
Module Dashboard.
Record t := make
  { isLoggingOut : bool;
    port25Status : Port25Status;
    isCheckingPort25 : bool;
    showWarningBanner : bool;
    warningMessage : jsstring;
    toasts : list Toast;
    navigations : list jsstring;
    errorLog : list jsstring }.
End Dashboard.

(** The initial values given to [useState]. *)
Definition mounted : Dashboard.t :=
  Dashboard.make false StatusUnknown false false [] [] [] [].

Definition setIsLoggingOut (v : bool) (st : Dashboard.t) : Dashboard.t :=
  Dashboard.make v (Dashboard.port25Status st) (Dashboard.isCheckingPort25 st)
    (Dashboard.showWarningBanner st) (Dashboard.warningMessage st)
    (Dashboard.toasts st) (Dashboard.navigations st) (Dashboard.errorLog st).

Definition setPort25Status (v : Port25Status) (st : Dashboard.t)
  : Dashboard.t :=
  Dashboard.make (Dashboard.isLoggingOut st) v (Dashboard.isCheckingPort25 st)
    (Dashboard.showWarningBanner st) (Dashboard.warningMessage st)
    (Dashboard.toasts st) (Dashboard.navigations st) (Dashboard.errorLog st).

Definition setIsCheckingPort25 (v : bool) (st : Dashboard.t) : Dashboard.t :=
  Dashboard.make (Dashboard.isLoggingOut st) (Dashboard.port25Status st) v
    (Dashboard.showWarningBanner st) (Dashboard.warningMessage st)
    (Dashboard.toasts st) (Dashboard.navigations st) (Dashboard.errorLog st).

Definition setShowWarningBanner (v : bool) (st : Dashboard.t) : Dashboard.t :=
  Dashboard.make (Dashboard.isLoggingOut st) (Dashboard.port25Status st)
    (Dashboard.isCheckingPort25 st) v (Dashboard.warningMessage st)
    (Dashboard.toasts st) (Dashboard.navigations st) (Dashboard.errorLog st).

Definition setWarningMessage (v : jsstring) (st : Dashboard.t) : Dashboard.t :=
  Dashboard.make (Dashboard.isLoggingOut st) (Dashboard.port25Status st)
    (Dashboard.isCheckingPort25 st) (Dashboard.showWarningBanner st) v
    (Dashboard.toasts st) (Dashboard.navigations st) (Dashboard.errorLog st).

(** [toast.success(msg)] and [toast.error(msg)] *)
Definition toast (t : Toast) (st : Dashboard.t) : Dashboard.t :=
  Dashboard.make (Dashboard.isLoggingOut st) (Dashboard.port25Status st)
    (Dashboard.isCheckingPort25 st) (Dashboard.showWarningBanner st)
    (Dashboard.warningMessage st) (Dashboard.toasts st ++ [t])
    (Dashboard.navigations st) (Dashboard.errorLog st).

(** [navigate(to, { replace: true })] *)
Definition navigate (to : jsstring) (st : Dashboard.t) : Dashboard.t :=
  Dashboard.make (Dashboard.isLoggingOut st) (Dashboard.port25Status st)
    (Dashboard.isCheckingPort25 st) (Dashboard.showWarningBanner st)
    (Dashboard.warningMessage st) (Dashboard.toasts st)
    (Dashboard.navigations st ++ [to]) (Dashboard.errorLog st).

(** [console.error(line, error)] *)
Definition consoleError (line : jsstring) (st : Dashboard.t) : Dashboard.t :=
  Dashboard.make (Dashboard.isLoggingOut st) (Dashboard.port25Status st)
    (Dashboard.isCheckingPort25 st) (Dashboard.showWarningBanner st)
    (Dashboard.warningMessage st) (Dashboard.toasts st)
    (Dashboard.navigations st) (Dashboard.errorLog st ++ [line]).

(** [checkPort25Status] up to its [await]. *)
Definition checkPort25StatusStart (st : Dashboard.t) : Dashboard.t :=
  setPort25Status StatusChecking (setIsCheckingPort25 true st).

(** [checkPort25Status] from its [await] on, given the state of the
    promise [verificationApi.checkPort25()] returned: nothing runs while it
    is pending; the [finally] block runs after either branch.
    [if (result.recommendation)] holds for a non-empty string only. *)
Definition checkPort25StatusResume
    (outcome : Promise Port25Result.t RawError.t) (st : Dashboard.t)
  : Dashboard.t :=
  match outcome with
  | Pending => st
  | Fulfilled result =>
    let st :=
      if Port25Result.port25Open result then
        setShowWarningBanner false (setPort25Status StatusOpen st)
      else
        let st := setPort25Status StatusClosed st in
        match Port25Result.recommendation result with
        | Some text =>
          if truthy text then
            setShowWarningBanner true (setWarningMessage text st)
          else st
        | None => st
        end in
    setIsCheckingPort25 false st
  | Rejected _ =>
    setIsCheckingPort25 false
      (toast (ToastError (js "Unable to check port 25 connectivity"))
         (setShowWarningBanner false
            (setPort25Status StatusUnknown
               (consoleError (js "Port 25 check failed:") st))))
  end.

(** [checkPort25Status()] *)
Definition checkPort25Status (outcome : Promise Port25Result.t RawError.t)
    (st : Dashboard.t) : Dashboard.t :=
  checkPort25StatusResume outcome (checkPort25StatusStart st).

(** [handleDismissWarning()] *)
Definition handleDismissWarning (st : Dashboard.t) : Dashboard.t :=
  setShowWarningBanner false st.

(** [handleLogout()], given the state of the promise [authApi.logout()]
    returned. *)
Definition handleLogout (outcome : Promise unit RawError.t) (st : Dashboard.t)
  : Dashboard.t :=
  let st := setIsLoggingOut true st in
  match outcome with
  | Pending => st
  | Fulfilled _ =>
    setIsLoggingOut false
      (navigate (js "/login")
         (toast (ToastSuccess (js "Logged out successfully")) st))
  | Rejected _ =>
    setIsLoggingOut false
      (toast (ToastError (js "Logout failed. Please try again."))
         (consoleError (js "Error during logout:") st))
  end.

(** [isActiveRoute(path)], with [location.pathname] as argument. *)
Definition isActiveRoute (pathname path : jsstring) : bool :=
  bool_decide (pathname = path) || startsWith pathname (path ++ js "/").

(** What the render shows of the warning banner: its message when
    [showWarningBanner] holds, nothing otherwise. *)
Definition renderedBanner (st : Dashboard.t) : option jsstring :=
  if Dashboard.showWarningBanner st then Some (Dashboard.warningMessage st)
  else None.

(** The props the render passes to [Port25Badge]: the configuration chosen
    for [status] and the [disabled] flag. *)
Definition renderedBadge (st : Dashboard.t) : BadgeConfig.t * bool :=
  (getBadgeConfig (Dashboard.port25Status st), Dashboard.isCheckingPort25 st).

(** One complete run of a handler of the dashboard, with the outcome of
    the request it awaits. *)
Inductive Action :=
  | RunCheck (outcome : Promise Port25Result.t RawError.t)
  | RunDismiss
  | RunLogout (outcome : Promise unit RawError.t).

Definition act (st : Dashboard.t) (a : Action) : Dashboard.t :=
  match a with
  | RunCheck outcome => checkPort25Status outcome st
  | RunDismiss => handleDismissWarning st
  | RunLogout outcome => handleLogout outcome st
  end.

(** The dashboard after mounting and running the handlers in order. *)
Definition dashboardAfter (actions : list Action) : Dashboard.t :=
  foldl act mounted actions.

(** What the render keeps true: the badge is disabled exactly while the
    status is 'checking', and a visible banner has a non-empty message and
    a status of 'closed' or 'checking'. *)
Definition coherent (st : Dashboard.t) : Prop :=
  (Dashboard.isCheckingPort25 st = true
   <-> Dashboard.port25Status st = StatusChecking)
  /\ (Dashboard.showWarningBanner st = true ->
      Dashboard.warningMessage st <> []
      /\ (Dashboard.port25Status st = StatusClosed
          \/ Dashboard.port25Status st = StatusChecking)).

(** ** Further vocabulary *)

(** No whitespace at either end. *)
Definition trimmed (s : jsstring) : Prop :=
  (forall c rest, s = c :: rest -> isWhiteSpace c = false)
  /\ (forall c init, s = init ++ [c] -> isWhiteSpace c = false).

(** A close event delivered after a connect event. *)
Definition closesAfterConnect (evs : list (Z * SocketEvent)) : Prop :=
  exists pre ev post,
    evs = pre ++ ev :: post
    /\ isClose ev = true
    /\ Exists (fun e => isConnect e = true) pre.

(** Two worlds with the same clock readings whose sockets behave the same
    for the hosts in [hosts]. *)
Definition agreeOn (hosts : list jsstring) (w w' : World.t) : Prop :=
  World.startTime w = World.startTime w'
  /\ World.endTime w = World.endTime w'
  /\ World.timestamp w = World.timestamp w'
  /\ forall h, h ∈ hosts -> World.socket w h 5000 = World.socket w' h 5000.

(** The codes whose rule reports port 25 as blocked. *)
Definition blockingCodes : list jsstring :=
  [ js "ECONNREFUSED"; js "ETIMEDOUT"; js "ENETUNREACH"; js "EHOSTUNREACH" ].

(** The message is a string that contains 'timeout'. *)
Definition mentionsTimeout (error : RawError.t) : Prop :=
  exists m, RawError.message error = Some m
            /\ includes m (js "timeout") = true.

(** The message is a string that does not contain 'timeout'. *)
Definition withoutTimeout (error : RawError.t) : Prop :=
  exists m, RawError.message error = Some m
            /\ includes m (js "timeout") = false.

(** The error is one the classifier reports as blocked: its code is
    ECONNREFUSED or ETIMEDOUT (whatever the message, even absent), or its
    message contains 'timeout', or its code is ENETUNREACH or EHOSTUNREACH
    and its message is a string. *)
Definition blocking (error : RawError.t) : Prop :=
  RawError.code error = Some (js "ECONNREFUSED")
  \/ RawError.code error = Some (js "ETIMEDOUT")
  \/ mentionsTimeout error
  \/ (is_Some (RawError.message error)
      /\ (RawError.code error = Some (js "ENETUNREACH")
          \/ RawError.code error = Some (js "EHOSTUNREACH"))).

(** A connection refused without any message. *)
Definition refusedBare : RawError.t :=
  RawError.make (Some (js "ECONNREFUSED")) None.

(** The severities the classifier assigns. *)
Definition severities : list jsstring := [js "low"; js "medium"; js "high"].

(** Every socket greets. *)
Definition greetingWorld : World.t := worldOf (fun _ => greeting).

(** Only the first target greets; every other socket closes before it
    connects. *)
Definition lonelyWorld : World.t :=
  worldOf (fun hostname =>
    if bool_decide (hostname = js "mxshield.brandnav.io") then greeting
    else closeOnly).

(** The first target refuses; every other socket connects and then stays
    silent for good. *)
Definition silentWorld : World.t :=
  worldOf (fun hostname =>
    if bool_decide (hostname = js "mxshield.brandnav.io") then emits refused
    else [(10%Z, EvConnect)]).

(** ** The classifier *)

Lemma strictEq_true (v : property) (lit : jsstring) :
  strictEq v lit = true <-> v = Some lit.
Proof.
  destruct v as [s|]; simpl; [|split; discriminate].
  rewrite bool_decide_eq_true. split; congruence.
Qed.

Lemma strictEq_false (v : property) (lit : jsstring) :
  strictEq v lit = false <-> v <> Some lit.
Proof.
  rewrite <- strictEq_true. destruct (strictEq v lit); split; congruence.
Qed.

Lemma orElse_cases (v : property) (d : jsstring) :
  orElse v d = match v with
               | Some (c :: s) => c :: s
               | _ => d
               end.
Proof. destruct v as [[|c s]|]; reflexivity. Qed.

(** The classifier completes normally exactly when it never has to call
    [includes] on an absent message. *)
Lemma classify_normal_iff (error : RawError.t) :
  (exists classified, classifyPort25Error error = Normal classified)
  <-> (is_Some (RawError.message error)
       \/ RawError.code error = Some (js "ECONNREFUSED")
       \/ RawError.code error = Some (js "ETIMEDOUT")).
Proof.
  unfold classifyPort25Error.
  destruct (strictEq (RawError.code error) (js "ECONNREFUSED")) eqn:Href.
  { apply strictEq_true in Href. split; eauto. }
  destruct (strictEq (RawError.code error) (js "ETIMEDOUT")) eqn:Htime.
  { apply strictEq_true in Htime. split; eauto. }
  apply strictEq_false in Href, Htime.
  destruct (RawError.message error) as [m|]; simpl.
  - split; [eauto|intros _].
    destruct (includes m (js "timeout")); [eauto|].
    repeat match goal with |- context [if ?b then _ else _] => destruct b end;
      eauto.
  - split; [intros [c Hc]; discriminate|].
    intros [[m Hm]|[?|?]]; congruence.
Qed.

(** The name-not-found rule applies when the timeout rule does not. *)
Lemma notFound_rule (error : RawError.t) (m : jsstring) :
  RawError.code error = Some (js "ENOTFOUND") ->
  RawError.message error = Some m ->
  includes m (js "timeout") = false ->
  classifyPort25Error error =
    Normal
      {| Classified.blocked := BlockedFalse;
         Classified.reason :=
           js "DNS resolution failed - Server hostname not found";
         Classified.severity := js "low";
         Classified.errorCode := Some (js "ENOTFOUND") |}.
Proof.
  intros Hcode Hm Hin. unfold classifyPort25Error. rewrite Hcode, Hm.
  replace (strictEq (Some (js "ENOTFOUND")) (js "ECONNREFUSED")) with false
    by reflexivity.
  replace (strictEq (Some (js "ENOTFOUND")) (js "ETIMEDOUT")) with false
    by reflexivity.
  unfold messageIncludes. rewrite Hin. reflexivity.
Qed.

(** C5, as the code has it: an error with code ETIMEDOUT, or whose message
    contains 'timeout', and whose code is not ECONNREFUSED, is classified
    blocked = true, severity 'medium', reason 'Connection timeout - Port 25
    may be blocked or server unavailable', and errorCode the input's code
    when that is a non-empty string, 'TIMEOUT' when it is absent or
    empty. *)
Theorem timeout_rule (error : RawError.t) :
  RawError.code error <> Some (js "ECONNREFUSED") ->
  (RawError.code error = Some (js "ETIMEDOUT")
   \/ exists m, RawError.message error = Some m
                /\ includes m (js "timeout") = true) ->
  classifyPort25Error error =
    Normal
      {| Classified.blocked := BlockedTrue;
         Classified.reason :=
           js "Connection timeout - Port 25 may be blocked or server unavailable";
         Classified.severity := js "medium";
         Classified.errorCode :=
           Some (match RawError.code error with
                 | Some (c :: s) => c :: s
                 | _ => js "TIMEOUT"
                 end) |}.
Proof.
  intros Href Hrule. unfold classifyPort25Error.
  apply strictEq_false in Href. rewrite Href, orElse_cases.
  destruct Hrule as [Hcode|(m & Hm & Hin)].
  - apply strictEq_true in Hcode. rewrite Hcode. reflexivity.
  - rewrite Hm. simpl. rewrite Hin.
    destruct (strictEq (RawError.code error) (js "ETIMEDOUT")); reflexivity.
Qed.

Lemma timeout_rule_witness :
  classifyPort25Error (newError (js "Connection timeout")) =
    Normal
      {| Classified.blocked := BlockedTrue;
         Classified.reason :=
           js "Connection timeout - Port 25 may be blocked or server unavailable";
         Classified.severity := js "medium";
         Classified.errorCode := Some (js "TIMEOUT") |}.
Proof.
  apply (timeout_rule (newError (js "Connection timeout"))).
  - discriminate.
  - right. exists (js "Connection timeout"). split; reflexivity.
Defined.

(** C5 as stated fails: on [new Error('Connection timeout')] the reason
    returned is not the text of the specification's table (the code's
    text has a hyphen and a capital P). *)
Lemma timeout_reason_differs :
  exists classified,
    classifyPort25Error (newError (js "Connection timeout")) = Normal classified
    /\ Classified.blocked classified = BlockedTrue
    /\ Classified.reason classified <> tableTimeoutReason.
Proof. eexists. split; [reflexivity|]. split; [reflexivity|]. discriminate. Qed.

(** C6, as the code has it: the classifier returns a classification for
    every input whose message is a string (empty or not), and for every
    input whose code is ECONNREFUSED or ETIMEDOUT; in the default case (a
    string message without 'timeout', a code that no rule names) blocked is
    'unknown', severity 'medium', the reason is the message, or 'Unknown
    error' when the message is empty, and errorCode is the code, or
    'UNKNOWN' when the code is absent or empty. On an input whose message
    is absent and whose code is neither ECONNREFUSED nor ETIMEDOUT it
    throws a TypeError, that of calling 'includes' on undefined. *)
Theorem classify_total_on_errors (error : RawError.t) :
  (is_Some (RawError.message error)
   \/ RawError.code error = Some (js "ECONNREFUSED")
   \/ RawError.code error = Some (js "ETIMEDOUT") ->
   exists classified, classifyPort25Error error = Normal classified)
  /\ (forall m,
        RawError.message error = Some m ->
        includes m (js "timeout") = false ->
        (forall c, RawError.code error = Some c -> c ∉ recognisedCodes) ->
        classifyPort25Error error =
          Normal
            {| Classified.blocked := BlockedUnknown;
               Classified.reason :=
                 match m with
                 | [] => js "Unknown error"
                 | _ :: _ => m
                 end;
               Classified.severity := js "medium";
               Classified.errorCode :=
                 Some (match RawError.code error with
                       | Some (c :: s) => c :: s
                       | _ => js "UNKNOWN"
                       end) |})
  /\ (RawError.message error = None ->
      RawError.code error <> Some (js "ECONNREFUSED") ->
      RawError.code error <> Some (js "ETIMEDOUT") ->
      classifyPort25Error error = Throw (TypeError (js "includes"))).
Proof.
  split; [apply classify_normal_iff|]. split.
  - intros m Hm Hin Hcode.
    assert (Hno : forall lit, lit ∈ recognisedCodes ->
                    strictEq (RawError.code error) lit = false).
    { intros lit Hlit. apply strictEq_false. intros Heq.
      exact (Hcode lit Heq Hlit). }
    unfold classifyPort25Error.
    rewrite !Hno by (unfold recognisedCodes; repeat constructor).
    rewrite Hm. simpl. rewrite Hin, !orElse_cases.
    destruct m; reflexivity.
  - intros Hm Href Htime. apply strictEq_false in Href, Htime.
    unfold classifyPort25Error. rewrite Href, Htime, Hm. reflexivity.
Qed.

Lemma classify_total_on_errors_witness :
  (exists classified, classifyPort25Error protocolError = Normal classified)
  /\ classifyPort25Error protocolError =
       Normal
         {| Classified.blocked := BlockedUnknown;
            Classified.reason := js "Unknown error";
            Classified.severity := js "medium";
            Classified.errorCode := Some (js "EPROTO") |}
  /\ classifyPort25Error (RawError.make (Some (js "ENOTFOUND")) None)
     = Throw (TypeError (js "includes")).
Proof.
  destruct (classify_total_on_errors protocolError)
    as (Htotal & Hdefault & _).
  destruct (classify_total_on_errors
              (RawError.make (Some (js "ENOTFOUND")) None))
    as (_ & _ & Hthrows).
  split; [|split].
  - apply Htotal. left. eexists. reflexivity.
  - apply (Hdefault []); [reflexivity|reflexivity|].
    intros c Hc. injection Hc as <-. unfold recognisedCodes.
    rewrite !elem_of_cons, elem_of_nil.
    intros [?|[?|[?|[?|[?|[?|[]]]]]]]; discriminate.
  - apply Hthrows; [reflexivity|discriminate|discriminate].
Defined.

(** Counterexample to C6: a failure description without a message and
    without a code makes the classifier throw, at
    [errorMessage.includes('timeout')]. *)
Lemma classify_throws_without_message :
  classifyPort25Error bare = Throw (TypeError (js "includes")).
Proof. reflexivity. Qed.

(** ** The prober *)

Section Handlers.
Variable startTime : Z.

Lemma resolve_settled v st :
  settled (Probe.promise (resolve v st)) = true.
Proof. unfold resolve. destruct (Probe.promise st) eqn:E; simpl; rewrite ?E; done. Qed.

Lemma reject_settled e st :
  settled (Probe.promise (reject e st)) = true.
Proof. unfold reject. destruct (Probe.promise st) eqn:E; simpl; rewrite ?E; done. Qed.

Lemma resolve_noop v st :
  settled (Probe.promise st) = true -> resolve v st = st.
Proof. unfold resolve. destruct (Probe.promise st); done. Qed.

Lemma reject_noop e st :
  settled (Probe.promise st) = true -> reject e st = st.
Proof. unfold reject. destruct (Probe.promise st); done. Qed.

Lemma resolve_pending v st :
  Probe.promise st = Pending ->
  Probe.promise (resolve v st) = Fulfilled v.
Proof. unfold resolve. intros ->. reflexivity. Qed.

Lemma reject_pending e st :
  Probe.promise st = Pending ->
  Probe.promise (reject e st) = Rejected e.
Proof. unfold reject. intros ->. reflexivity. Qed.

(** A handler never changes a settled promise. *)
Lemma handle_settled st ev :
  settled (Probe.promise st) = true ->
  Probe.promise (handle startTime st ev) = Probe.promise st.
Proof.
  intros Hst. destruct ev as [now [|data| |err|]]; simpl.
  - reflexivity.
  - unfold onData. case (startsWith _ _).
    + rewrite resolve_noop; done.
    + rewrite reject_noop; done.
  - unfold onTimeout. rewrite reject_noop; done.
  - unfold onError. rewrite reject_noop; done.
  - unfold onClose. case (_ && _); [|done]. rewrite reject_noop; done.
Qed.

Lemma deliver_settled st evs :
  settled (Probe.promise st) = true ->
  Probe.promise (deliver startTime st evs) = Probe.promise st.
Proof.
  revert st. induction evs as [|ev evs IH]; intros st Hst; [done|].
  simpl. rewrite IH; [apply handle_settled; done|].
  rewrite handle_settled; done.
Qed.

Lemma deliver_app st pre post :
  deliver startTime st (pre ++ post)
  = deliver startTime (deliver startTime st pre) post.
Proof. apply foldl_app. Qed.

(** The handlers of data, timeout and error call [destroy] once each;
    those of connect and close do not call it. *)
Lemma handle_destroyCalls st ev :
  Probe.destroyCalls (handle startTime st ev)
  = Probe.destroyCalls st + (if destroys ev then 1 else 0).
Proof.
  destruct ev as [now [|data| |err|]]; simpl.
  - lia.
  - unfold onData, resolve, reject. simpl.
    case (startsWith _ _); destruct (Probe.promise st); simpl; lia.
  - unfold onTimeout, reject. simpl. destruct (Probe.promise st); simpl; lia.
  - unfold onError, reject. simpl. destruct (Probe.promise st); simpl; lia.
  - unfold onClose, reject.
    case (_ && _); [|lia]. destruct (Probe.promise st); simpl; lia.
Qed.

Lemma deliver_destroyCalls st evs :
  Probe.destroyCalls (deliver startTime st evs)
  = Probe.destroyCalls st + length (filter (fun ev => destroys ev = true) evs).
Proof.
  revert st. induction evs as [|ev evs IH]; intros st; simpl; [lia|].
  rewrite IH, handle_destroyCalls, filter_cons.
  destruct (decide (destroys ev = true)) as [Hd|Hd].
  - rewrite Hd. simpl. lia.
  - apply not_true_is_false in Hd. rewrite Hd. lia.
Qed.

Lemma handle_fresh st ev : fresh st -> fresh (handle startTime st ev).
Proof.
  unfold fresh. intros Hst.
  destruct ev as [now [|data| |err|]]; simpl.
  - exact Hst.
  - intros Hp. exfalso. revert Hp. unfold onData.
    case (startsWith _ _); intros Hp.
    + pose proof (resolve_settled
        (ProbeResult.make true (now - startTime) (trim data))
        (destroy (Probe.make (trim data) (Probe.connected st)
                    (Probe.promise st) (Probe.destroyCalls st)))) as H.
      rewrite Hp in H. discriminate.
    + pose proof (reject_settled
        (newError (js "Invalid SMTP banner received: " ++ trim data))
        (destroy (Probe.make (trim data) (Probe.connected st)
                    (Probe.promise st) (Probe.destroyCalls st)))) as H.
      rewrite Hp in H. discriminate.
  - intros Hp. pose proof (reject_settled
      (newError (js "Connection timeout")) (destroy st)) as H.
    unfold onTimeout in Hp. rewrite Hp in H. discriminate.
  - intros Hp. pose proof (reject_settled err (destroy st)) as H.
    unfold onError in Hp. rewrite Hp in H. discriminate.
  - unfold onClose. case (_ && _); [|exact Hst].
    intros Hp. pose proof (reject_settled
      (newError (js "Connection closed without receiving SMTP banner")) st)
      as H.
    rewrite Hp in H. discriminate.
Qed.

Lemma executor_fresh thrown : fresh (executor thrown).
Proof. destruct thrown; unfold fresh; simpl; [discriminate|done]. Qed.

Lemma deliver_fresh st evs : fresh st -> fresh (deliver startTime st evs).
Proof.
  revert st. induction evs as [|ev evs IH]; intros st Hst; [done|].
  simpl. apply IH, handle_fresh, Hst.
Qed.

(** A data chunk that arrives while the promise is pending decides it. *)
Lemma onData_pending st now data :
  Probe.promise st = Pending ->
  Probe.promise (onData startTime now data st)
  = if startsWith (trim data) (js "220")
    then Fulfilled (ProbeResult.make true (now - startTime) (trim data))
    else Rejected
           (newError (js "Invalid SMTP banner received: " ++ trim data)).
Proof.
  intros Hp. unfold onData. case (startsWith _ _).
  - apply resolve_pending. exact Hp.
  - apply reject_pending. exact Hp.
Qed.
End Handlers.

Lemma testSingleHost_stateAfter w hostname timeout :
  testSingleHost w hostname timeout
  = Probe.promise (stateAfter (World.socket w hostname timeout)
                     (Attempt.events (World.socket w hostname timeout))).
Proof. reflexivity. Qed.

Lemma stateAfter_app a pre post :
  stateAfter a (pre ++ post)
  = deliver (Attempt.startTime a) (stateAfter a pre) post.
Proof. apply deliver_app. Qed.

Lemma stateAfter_snoc a pre ev :
  stateAfter a (pre ++ [ev])
  = handle (Attempt.startTime a) (stateAfter a pre) ev.
Proof. apply foldl_snoc. Qed.

Lemma stateAfter_fresh a evs : fresh (stateAfter a evs).
Proof. apply deliver_fresh, executor_fresh. Qed.

(** Once the promise is settled, the events that follow leave it as it
    is. *)
Lemma stateAfter_settled a pre post :
  settled (Probe.promise (stateAfter a pre)) = true ->
  Probe.promise (stateAfter a (pre ++ post)) = Probe.promise (stateAfter a pre).
Proof. intros Hset. rewrite stateAfter_app. apply deliver_settled, Hset. Qed.

Lemma testSingleHost_settled w hostname timeout pre post :
  Attempt.events (World.socket w hostname timeout) = pre ++ post ->
  settled (Probe.promise (stateAfter (World.socket w hostname timeout) pre))
  = true ->
  testSingleHost w hostname timeout
  = Probe.promise (stateAfter (World.socket w hostname timeout) pre).
Proof.
  intros Hevs Hset. rewrite testSingleHost_stateAfter, Hevs.
  apply stateAfter_settled, Hset.
Qed.

(** C10. Whatever events the socket delivers and in whatever order, the
    promise of testSingleHost settles at most once: once it is resolved or
    rejected after some prefix of the events, it has that same outcome
    after every further event, and so at the end. *)
Theorem promise_settles_once (w : World.t) (hostname : jsstring)
    (timeout : Z) (pre post : list (Z * SocketEvent)) :
  Attempt.events (World.socket w hostname timeout) = pre ++ post ->
  settled (Probe.promise (stateAfter (World.socket w hostname timeout) pre))
  = true ->
  (forall n,
     Probe.promise
       (stateAfter (World.socket w hostname timeout) (pre ++ take n post))
     = Probe.promise (stateAfter (World.socket w hostname timeout) pre))
  /\ testSingleHost w hostname timeout
     = Probe.promise (stateAfter (World.socket w hostname timeout) pre).
Proof.
  intros Hevs Hset. split.
  - intros n. apply stateAfter_settled, Hset.
  - apply (testSingleHost_settled w hostname timeout pre post Hevs Hset).
Qed.

Lemma promise_settles_once_witness :
  testSingleHost (worldOf (fun _ => lateBanner)) (js "mx1.zoho.com") 5000
  = Rejected (newError (js "Connection timeout")).
Proof.
  apply (promise_settles_once (worldOf (fun _ => lateBanner))
           (js "mx1.zoho.com") 5000
           [(5000%Z, EvTimeout)]
           [(5001%Z, EvClose); (5002%Z, EvData (js "220 too late"))]).
  - reflexivity.
  - reflexivity.
Defined.

(** C3. The first data chunk that reaches the prober while its promise is
    pending decides the outcome: with the chunk decoded and trimmed, the
    prober resolves with success = true, the elapsed time and the trimmed
    text as banner if and only if that text starts with '220'; otherwise
    it rejects with the error 'Invalid SMTP banner received: ' followed by
    the trimmed text. *)
Theorem first_chunk_decides (w : World.t) (hostname : jsstring) (timeout : Z)
    (pre post : list (Z * SocketEvent)) (now : Z) (data : jsstring) :
  Attempt.events (World.socket w hostname timeout)
  = pre ++ (now, EvData data) :: post ->
  Probe.promise (stateAfter (World.socket w hostname timeout) pre) = Pending ->
  ((exists result, testSingleHost w hostname timeout = Fulfilled result)
   <-> startsWith (trim data) (js "220") = true)
  /\ (startsWith (trim data) (js "220") = true ->
      testSingleHost w hostname timeout
      = Fulfilled
          {| ProbeResult.success := true;
             ProbeResult.responseTime :=
               now - Attempt.startTime (World.socket w hostname timeout);
             ProbeResult.banner := trim data |})
  /\ (startsWith (trim data) (js "220") = false ->
      testSingleHost w hostname timeout
      = Rejected
          (newError (js "Invalid SMTP banner received: " ++ trim data))).
Proof.
  intros Hevs Hpending.
  assert (Hout : testSingleHost w hostname timeout
                 = if startsWith (trim data) (js "220")
                   then Fulfilled
                          (ProbeResult.make true
                             (now - Attempt.startTime
                                      (World.socket w hostname timeout))
                             (trim data))
                   else Rejected
                          (newError (js "Invalid SMTP banner received: "
                                     ++ trim data))).
  { rewrite (testSingleHost_settled w hostname timeout
               (pre ++ [(now, EvData data)]) post).
    - rewrite stateAfter_snoc. apply onData_pending, Hpending.
    - rewrite Hevs, <- app_assoc. reflexivity.
    - rewrite stateAfter_snoc. simpl.
      rewrite (onData_pending _ _ now data Hpending).
      case (startsWith _ _); reflexivity. }
  rewrite Hout. destruct (startsWith (trim data) (js "220")).
  - split; [split; eauto|]. split; [reflexivity|discriminate].
  - split; [split; [intros [r Hr]|]; discriminate|].
    split; [discriminate|reflexivity].
Qed.

Lemma first_chunk_decides_witness :
  testSingleHost (worldOf (fun _ => greeting)) (js "mx1.zoho.com") 5000
  = Fulfilled
      {| ProbeResult.success := true;
         ProbeResult.responseTime := 20;
         ProbeResult.banner := js "220 mx.google.com ESMTP ready" |}.
Proof.
  apply (first_chunk_decides (worldOf (fun _ => greeting))
           (js "mx1.zoho.com") 5000 [(10%Z, EvConnect)] [] 20
           (js "220 mx.google.com ESMTP ready" ++ [13%N; 10%N])).
  - reflexivity.
  - reflexivity.
  - reflexivity.
Defined.

(** C7, as the code has it: every call of the data, timeout or error
    handler invokes socket.destroy exactly once, and the connect and close
    handlers never invoke it. So at the event that settles the promise,
    socket.destroy has been invoked exactly once when a data handler (valid
    or invalid banner), the timeout handler or the error handler settles
    it, and not at all when the close handler settles it (connection closed
    without banner). *)
Theorem destroy_once_per_handler (w : World.t) (hostname : jsstring)
    (timeout : Z) :
  Probe.destroyCalls (runAttempt (World.socket w hostname timeout))
  = length (filter (fun ev => destroys ev = true)
              (Attempt.events (World.socket w hostname timeout)))
  /\ forall pre ev post,
       Attempt.events (World.socket w hostname timeout) = pre ++ ev :: post ->
       Probe.promise (stateAfter (World.socket w hostname timeout) pre)
       = Pending ->
       settled (Probe.promise
                  (stateAfter (World.socket w hostname timeout) (pre ++ [ev])))
       = true ->
       Probe.destroyCalls
         (stateAfter (World.socket w hostname timeout) (pre ++ [ev]))
       = (if isClose ev then 0 else 1)
       /\ testSingleHost w hostname timeout
          = Probe.promise
              (stateAfter (World.socket w hostname timeout) (pre ++ [ev])).
Proof.
  split.
  - unfold runAttempt. rewrite deliver_destroyCalls.
    destruct (Attempt.connectThrows _); reflexivity.
  - intros pre ev post Hevs Hpending Hsettled. split.
    + destruct (stateAfter_fresh (World.socket w hostname timeout) pre Hpending)
        as [Hzero _].
      revert Hsettled. rewrite stateAfter_snoc, handle_destroyCalls, Hzero.
      destruct ev as [now [|data| |err|]]; simpl; try reflexivity.
      unfold onConnect. simpl. rewrite Hpending. discriminate.
    + apply (testSingleHost_settled w hostname timeout (pre ++ [ev]) post);
        [|exact Hsettled].
      rewrite Hevs, <- app_assoc. reflexivity.
Qed.

Lemma destroy_once_per_handler_witness :
  Probe.destroyCalls
    (stateAfter (World.socket (worldOf (fun _ => lateBanner))
                   (js "mx1.zoho.com") 5000)
       ([] ++ [(5000%Z, EvTimeout)]))
  = 1
  /\ testSingleHost (worldOf (fun _ => lateBanner)) (js "mx1.zoho.com") 5000
     = Rejected (newError (js "Connection timeout")).
Proof.
  destruct (destroy_once_per_handler (worldOf (fun _ => lateBanner))
              (js "mx1.zoho.com") 5000) as [_ Hstep].
  apply (Hstep [] (5000%Z, EvTimeout)
           [(5001%Z, EvClose); (5002%Z, EvData (js "220 too late"))]).
  - reflexivity.
  - reflexivity.
  - reflexivity.
Defined.

(** Counterexample to C7: when the peer accepts the connection and closes
    it without sending anything, the prober rejects through the close
    handler and socket.destroy is never invoked. *)
Lemma closed_without_banner_never_destroys :
  testSingleHost (worldOf (fun _ => silentClose)) (js "mx1.zoho.com") 5000
  = Rejected closedWithoutBanner
  /\ Probe.destroyCalls
       (runAttempt (World.socket (worldOf (fun _ => silentClose))
                      (js "mx1.zoho.com") 5000))
     = 0.
Proof. split; reflexivity. Qed.

(** Events that neither carry data nor report a timeout or an error leave
    the banner empty; they leave the promise pending until a close finds
    the socket connected. *)
Lemma quiet_events (startTime : Z) (evs : list (Z * SocketEvent)) :
  Forall (fun ev => destroys ev = false) evs ->
  forall st,
    Probe.smtpBanner st = [] ->
    (Probe.promise st = Pending
     \/ Probe.promise st = Rejected closedWithoutBanner) ->
    let st' := deliver startTime st evs in
    Probe.smtpBanner st' = []
    /\ (Probe.promise st' = Pending
        \/ Probe.promise st' = Rejected closedWithoutBanner)
    /\ (Probe.connected st = true \/ Exists (fun ev => isConnect ev = true) evs
        -> Probe.connected st' = true)
    /\ (Probe.connected st = false ->
        Forall (fun ev => isConnect ev = false) evs ->
        st' = st).
Proof.
  induction 1 as [|ev evs Hev _ IH]; intros st Hbanner Hpromise; simpl.
  { repeat split; try done. intros [?|Hex]; [done|inversion Hex]. }
  assert (Hstep : Probe.smtpBanner (handle startTime st ev) = []
            /\ (Probe.promise (handle startTime st ev) = Pending
                \/ Probe.promise (handle startTime st ev)
                   = Rejected closedWithoutBanner)
            /\ (Probe.connected st = true \/ isConnect ev = true ->
                Probe.connected (handle startTime st ev) = true)
            /\ (Probe.connected st = false -> isConnect ev = false ->
                handle startTime st ev = st)).
  { destruct ev as [now [|data| |err|]]; try discriminate Hev; simpl.
    - repeat split; done.
    - unfold onClose. rewrite Hbanner. simpl. rewrite andb_true_r.
      destruct (Probe.connected st) eqn:Hconn.
      + unfold reject.
        destruct Hpromise as [Hp|Hp]; rewrite Hp; simpl;
          repeat split; try done; auto.
      + repeat split; try done. intros [?|?]; discriminate. }
  destruct Hstep as (Hb & Hp & Hc & Hsame).
  destruct (IH _ Hb Hp) as (Hb' & Hp' & Hc' & Hsame').
  repeat split; try done.
  - intros [Hconn|Hex]; apply Hc'.
    + left. apply Hc. left. exact Hconn.
    + apply Exists_cons in Hex as [Hnow|Hlater];
        [left; apply Hc; right; exact Hnow|right; exact Hlater].
  - intros Hconn Hall. apply Forall_cons in Hall as [Hnow Hlater].
    specialize (Hsame Hconn Hnow). rewrite Hsame in Hsame' |- *.
    apply Hsame'; done.
Qed.

(** C8, as the code has it: when the socket emits a close event after a
    connect event, no data was received and no error or timeout was
    reported before it, the prober rejects with the error 'Connection
    closed without receiving SMTP banner'; when the close event comes
    before any connect event, the close handler does nothing and the
    promise is still pending after it. *)
Theorem close_after_connect_rejects (w : World.t) (hostname : jsstring)
    (timeout : Z) (pre post : list (Z * SocketEvent)) (now : Z) :
  Attempt.connectThrows (World.socket w hostname timeout) = None ->
  Attempt.events (World.socket w hostname timeout)
  = pre ++ (now, EvClose) :: post ->
  Forall (fun ev => destroys ev = false) pre ->
  (Exists (fun ev => isConnect ev = true) pre ->
   testSingleHost w hostname timeout = Rejected closedWithoutBanner)
  /\ (Forall (fun ev => isConnect ev = false) pre ->
      Probe.promise
        (stateAfter (World.socket w hostname timeout)
           (pre ++ [(now, EvClose)]))
      = Pending).
Proof.
  intros Hthrown Hevs Hquiet.
  destruct (quiet_events (Attempt.startTime (World.socket w hostname timeout))
              pre Hquiet (executor None) eq_refl (or_introl eq_refl))
    as (Hbanner & Hpromise & Hconn & Hsame).
  assert (Hafter : stateAfter (World.socket w hostname timeout) pre
                   = deliver (Attempt.startTime
                                (World.socket w hostname timeout))
                       (executor None) pre).
  { unfold stateAfter. rewrite Hthrown. reflexivity. }
  assert (Hclose : Exists (fun ev => isConnect ev = true) pre ->
            Probe.promise
              (stateAfter (World.socket w hostname timeout)
                 (pre ++ [(now, EvClose)]))
            = Rejected closedWithoutBanner).
  { intros Hex. rewrite stateAfter_snoc, Hafter.
    set (st := deliver _ _ pre) in *.
    change (handle _ st (now, EvClose)) with (onClose st). unfold onClose.
    rewrite Hbanner, Hconn by (right; exact Hex). simpl.
    unfold reject. destruct Hpromise as [Hp|Hp]; rewrite Hp; [reflexivity|].
    exact Hp. }
  split.
  - intros Hex.
    rewrite (testSingleHost_settled w hostname timeout
               (pre ++ [(now, EvClose)]) post).
    + apply Hclose, Hex.
    + rewrite Hevs, <- app_assoc. reflexivity.
    + rewrite Hclose by exact Hex. reflexivity.
  - intros Hall. rewrite stateAfter_snoc, Hafter, Hsame by done.
    reflexivity.
Qed.

Lemma close_after_connect_rejects_witness :
  testSingleHost (worldOf (fun _ => silentClose)) (js "mx1.zoho.com") 5000
  = Rejected closedWithoutBanner.
Proof.
  apply (close_after_connect_rejects (worldOf (fun _ => silentClose))
           (js "mx1.zoho.com") 5000 [(10%Z, EvConnect)] [] 30).
  - reflexivity.
  - reflexivity.
  - repeat constructor.
  - repeat constructor.
Defined.

(** Counterexample to C8: a socket that emits close before it ever
    connected, with no data, error or timeout, leaves the prober
    pending. *)
Lemma close_before_connect_stays_pending :
  testSingleHost (worldOf (fun _ => closeOnly)) (js "mx1.zoho.com") 5000
  = Pending.
Proof. reflexivity. Qed.

(** ** The multi-host check *)

(** What a fulfilled run of the loop returns: either some target greeted
    after all the targets before it failed and were classified, or every
    target failed and was classified. *)
Lemma checkLoop_fulfilled (w : World.t) (targets : list Target.t) :
  forall attempted errors report,
    checkLoop w targets attempted errors = Fulfilled report ->
    (exists pre target post result entries,
        targets = pre ++ target :: post
        /\ Forall2 (failedWith w) pre entries
        /\ testSingleHost w (Target.host target) 5000 = Fulfilled result
        /\ report = successReport w target
                      (attempted ++ (Target.host <$> pre)
                       ++ [Target.host target]) result)
    \/ (exists entries,
        Forall2 (failedWith w) targets entries
        /\ report = failureReport w (attempted ++ (Target.host <$> targets))
                      (errors ++ entries)).
Proof.
  induction targets as [|target rest IH]; intros attempted errors report; simpl.
  { intros [= <-]. right. exists []. rewrite !app_nil_r. split; constructor. }
  destruct (testSingleHost w (Target.host target) 5000)
    as [|result|error] eqn:Hprobe; [discriminate| |].
  { intros [= <-]. left. exists [], target, rest, result, [].
    repeat split; [constructor|exact Hprobe]. }
  destruct (classifyPort25Error error) as [classified|x] eqn:Hclass;
    [|discriminate].
  intros Hloop.
  assert (Hfailed : failedWith w target (errorEntry target classified)).
  { exists error, classified. done. }
  destruct (IH _ _ _ Hloop)
    as [(pre & hit & post & result & entries & -> & Hpre & Hhit & ->)
       |(entries & Hall & ->)].
  - left.
    exists (target :: pre), hit, post, result,
      (errorEntry target classified :: entries).
    repeat split; [constructor; done|exact Hhit|].
    rewrite <- !app_assoc. reflexivity.
  - right. exists (errorEntry target classified :: entries).
    split; [constructor; done|].
    rewrite <- !app_assoc. reflexivity.
Qed.

(** The loop returns a report whenever every probe settles and every
    rejection can be classified. *)
Lemma checkLoop_returns (w : World.t) (targets : list Target.t) :
  Forall (fun t => settled (testSingleHost w (Target.host t) 5000) = true)
    targets ->
  Forall (fun t => forall error,
            testSingleHost w (Target.host t) 5000 = Rejected error ->
            is_Some (RawError.message error)
            \/ RawError.code error = Some (js "ECONNREFUSED")
            \/ RawError.code error = Some (js "ETIMEDOUT"))
    targets ->
  forall attempted errors,
    exists report, checkLoop w targets attempted errors = Fulfilled report.
Proof.
  induction targets as [|target rest IH]; intros Hset Herr attempted errors;
    simpl; [eauto|].
  apply Forall_cons in Hset as [Hset Hsets].
  apply Forall_cons in Herr as [Herr Herrs].
  destruct (testSingleHost w (Target.host target) 5000)
    as [|result|error]; [discriminate|eauto|].
  destruct (proj2 (classify_normal_iff error) (Herr error eq_refl))
    as [classified ->].
  apply IH; done.
Qed.

Lemma allBlocked_Forall (errors : list Entry.t) :
  forallb (fun e => bool_decide (Entry.blocked e = BlockedTrue)) errors = true
  <-> Forall (fun e => Entry.blocked e = BlockedTrue) errors.
Proof.
  induction errors as [|e errors IH]; simpl.
  - split; [constructor|done].
  - rewrite andb_true_iff, bool_decide_eq_true, IH, Forall_cons. done.
Qed.

Lemma someUnknown_Exists (errors : list Entry.t) :
  existsb (fun e => bool_decide (Entry.blocked e = BlockedUnknown)) errors
  = true
  <-> Exists (fun e => Entry.blocked e = BlockedUnknown) errors.
Proof.
  induction errors as [|e errors IH]; simpl.
  - split; [discriminate|inversion 1].
  - rewrite orb_true_iff, bool_decide_eq_true, IH, Exists_cons. done.
Qed.

Lemma failedWith_failed w target entry :
  failedWith w target entry -> failed w target.
Proof. intros (error & _ & Hprobe & _). exists error. exact Hprobe. Qed.

Lemma failedWith_host w targets entries :
  Forall2 (failedWith w) targets entries ->
  Entry.host <$> entries = Target.host <$> targets.
Proof.
  induction 1 as [|target entry targets entries (e & c & _ & _ & ->) _ IH];
    [done|].
  rewrite !fmap_cons, IH. reflexivity.
Qed.

Lemma check_fulfilled (w : World.t) (report : Report.t) :
  checkPort25Connectivity w = Fulfilled report ->
  (exists pre target post result,
      testTargets = pre ++ target :: post
      /\ Forall (failed w) pre
      /\ testSingleHost w (Target.host target) 5000 = Fulfilled result
      /\ report = successReport w target
                    (Target.host <$> (pre ++ [target])) result)
  \/ (exists entries,
      Forall2 (failedWith w) testTargets entries
      /\ report = failureReport w (Target.host <$> testTargets) entries).
Proof.
  intros Hcheck. apply checkLoop_fulfilled in Hcheck
    as [(pre & target & post & result & entries & Hsplit & Hpre & Hhit & ->)
       |(entries & Hall & ->)].
  - left. exists pre, target, post, result. repeat split; try done.
    + clear -Hpre. induction Hpre; constructor; eauto using failedWith_failed.
    + rewrite fmap_app. reflexivity.
  - right. exists entries. done.
Qed.

(** C1, as the code has it: in every report the check returns,
    attemptedHosts is a prefix of the hosts of the five targets, which are
    listed in ascending priority; it ends at the first host whose probe
    succeeded, or holds all five hosts when every probe failed; testedHost
    and provider are non-null exactly when success and port25Open are both
    true. When every probe failed, the errors field holds exactly one entry
    per attempted host, in attempt order, each the classification of that
    host's failure. When a probe succeeded, the errors field is empty,
    whatever failed before. *)
Theorem report_invariant (w : World.t) (report : Report.t) :
  checkPort25Connectivity w = Fulfilled report ->
  Target.priority <$> testTargets = [1; 2; 3; 4; 5]%Z
  /\ Report.attemptedHosts report `prefix_of` (Target.host <$> testTargets)
  /\ ((Report.port25Open report = true
       /\ Report.errors report = []
       /\ exists pre target post result,
            testTargets = pre ++ target :: post
            /\ Report.attemptedHosts report
               = Target.host <$> (pre ++ [target])
            /\ Forall (failed w) pre
            /\ testSingleHost w (Target.host target) 5000 = Fulfilled result)
      \/ (Report.port25Open report = false
          /\ Report.attemptedHosts report = Target.host <$> testTargets
          /\ Forall2 (failedWith w) testTargets (Report.errors report)
          /\ Entry.host <$> Report.errors report
             = Report.attemptedHosts report))
  /\ (is_Some (Report.testedHost report)
      <-> Report.success report = true /\ Report.port25Open report = true)
  /\ (is_Some (Report.provider report)
      <-> Report.success report = true /\ Report.port25Open report = true).
Proof.
  intros Hcheck. split; [reflexivity|].
  apply check_fulfilled in Hcheck
    as [(pre & target & post & result & Hsplit & Hpre & Hhit & ->)
       |(entries & Hall & ->)]; cbn -[testTargets].
  - split.
    { rewrite Hsplit, !fmap_app. cbn.
      exists (Target.host <$> post). rewrite <- app_assoc. reflexivity. }
    split.
    { left. repeat split. exists pre, target, post, result. done. }
    split; (split; [done|eauto]).
  - split; [reflexivity|]. split.
    { right. repeat split; [exact Hall|]. apply (failedWith_host w), Hall. }
    split; (split; [intros [? [=]]|intros [_ [=]]]).
Qed.

Lemma report_invariant_witness :
  exists report,
    checkPort25Connectivity fallbackWorld = Fulfilled report
    /\ Report.attemptedHosts report `prefix_of` (Target.host <$> testTargets)
    /\ (is_Some (Report.testedHost report)
        <-> Report.success report = true /\ Report.port25Open report = true).
Proof.
  eexists. split; [reflexivity|].
  refine (let H := report_invariant fallbackWorld _ eq_refl in _).
  destruct H as (_ & Hprefix & _ & Htested & _).
  split; [exact Hprefix|exact Htested].
Defined.

(** Counterexample to C1: the first target refuses the connection and the
    second greets; the first host was attempted and failed, yet the
    returned errors field has no entry for it. *)
Lemma success_report_drops_errors :
  exists report,
    checkPort25Connectivity fallbackWorld = Fulfilled report
    /\ failedHosts fallbackWorld (Report.attemptedHosts report)
       = [js "mxshield.brandnav.io"]
    /\ Entry.host <$> Report.errors report = [].
Proof. eexists. split; [reflexivity|]. split; reflexivity. Qed.

(** C9, as the code has it: when the probe of target 1 fails and the probe
    of target 2 succeeds, the returned report has attemptedHosts of length
    2 (the hosts of targets 1 and 2), testedHost equal to target 2's host,
    provider 'Google', and an empty errors field. *)
Theorem fallback_report (w : World.t) (error : RawError.t)
    (result : ProbeResult.t) (report : Report.t) :
  testSingleHost w (js "mxshield.brandnav.io") 5000 = Rejected error ->
  testSingleHost w (js "gmail-smtp-in.l.google.com") 5000 = Fulfilled result ->
  checkPort25Connectivity w = Fulfilled report ->
  length (Report.attemptedHosts report) = 2
  /\ Report.attemptedHosts report
     = [js "mxshield.brandnav.io"; js "gmail-smtp-in.l.google.com"]
  /\ Report.testedHost report = Some (js "gmail-smtp-in.l.google.com")
  /\ Report.provider report = Some (js "Google")
  /\ Report.port25Open report = true
  /\ Report.errors report = [].
Proof.
  intros Hfirst Hsecond.
  unfold checkPort25Connectivity, testTargets.
  cbn [checkLoop Target.host]. rewrite Hfirst.
  destruct (classifyPort25Error error); [|discriminate].
  cbn [checkLoop Target.host]. rewrite Hsecond.
  intros [= <-]. repeat split.
Qed.

Lemma fallback_report_witness :
  exists report,
    checkPort25Connectivity fallbackWorld = Fulfilled report
    /\ length (Report.attemptedHosts report) = 2
    /\ Report.testedHost report = Some (js "gmail-smtp-in.l.google.com")
    /\ Report.errors report = [].
Proof.
  eexists. split; [reflexivity|].
  refine (let H := fallback_report fallbackWorld refused
                     (ProbeResult.make true 20
                        (js "220 mx.google.com ESMTP ready"))
                     _ eq_refl eq_refl eq_refl in _).
  destruct H as (Hlen & _ & Htested & _ & _ & Herrors).
  split; [exact Hlen|]. split; [exact Htested|exact Herrors].
Defined.

(** Counterexample to C9: the first target refuses the connection and the
    second greets; the errors field of the returned report has no entry,
    not one. *)
Lemma fallback_errors_empty :
  exists error result report,
    testSingleHost fallbackWorld (js "mxshield.brandnav.io") 5000
    = Rejected error
    /\ testSingleHost fallbackWorld (js "gmail-smtp-in.l.google.com") 5000
       = Fulfilled result
    /\ checkPort25Connectivity fallbackWorld = Fulfilled report
    /\ length (Report.errors report) <> 1.
Proof.
  do 3 eexists. split; [reflexivity|]. split; [reflexivity|].
  split; [reflexivity|]. discriminate.
Qed.

(** C2. The check never fails: for every combination of outcomes of the
    five probes, each one a success or a rejection with an Error (a
    timeout is the rejection with the Error 'Connection timeout'), the
    check resolves with a report and does not reject; and the flag success
    is true in every report it returns, the all-hosts-failed report
    included. *)
Theorem check_always_reports (w : World.t) :
  (forall report,
     checkPort25Connectivity w = Fulfilled report ->
     Report.success report = true)
  /\ (Forall (fun t => settled (testSingleHost w (Target.host t) 5000) = true)
        testTargets ->
      Forall (fun t => forall error,
                testSingleHost w (Target.host t) 5000 = Rejected error ->
                isError error)
        testTargets ->
      exists report,
        checkPort25Connectivity w = Fulfilled report
        /\ Report.success report = true).
Proof.
  assert (Hsuccess : forall report,
            checkPort25Connectivity w = Fulfilled report ->
            Report.success report = true).
  { intros report Hcheck. apply check_fulfilled in Hcheck
      as [(pre & target & post & result & _ & _ & _ & ->)
         |(entries & _ & ->)]; reflexivity. }
  split; [exact Hsuccess|].
  intros Hsettled Herror.
  assert (Hclassified :
            Forall (fun t => forall error,
                      testSingleHost w (Target.host t) 5000 = Rejected error ->
                      is_Some (RawError.message error)
                      \/ RawError.code error = Some (js "ECONNREFUSED")
                      \/ RawError.code error = Some (js "ETIMEDOUT"))
              testTargets).
  { apply (Forall_impl _ _ _ Herror). intros t Ht error Hprobe.
    left. exact (Ht error Hprobe). }
  destruct (checkLoop_returns w testTargets Hsettled Hclassified [] [])
    as [report Hreport].
  exists report. split; [exact Hreport|]. apply Hsuccess, Hreport.
Qed.

Lemma check_always_reports_witness :
  exists report,
    checkPort25Connectivity (failingWorld notFound) = Fulfilled report
    /\ Report.success report = true.
Proof.
  apply (check_always_reports (failingWorld notFound)).
  - repeat constructor.
  - repeat (constructor; [intros error [= <-]; eexists; reflexivity|]).
    constructor.
Defined.

(** Outside the documented input: a rejection value that is not an Error,
    with neither a message nor a code, makes the classifier throw inside
    the catch block, and the check rejects. *)
Lemma check_rejects_on_bare_rejection :
  testSingleHost (failingWorld bare) (js "mxshield.brandnav.io") 5000
  = Rejected bare
  /\ checkPort25Connectivity (failingWorld bare)
     = Rejected (TypeError (js "includes")).
Proof. split; reflexivity. Qed.

(** C4, as the code has it: when all five probes fail, the returned report
    carries the five classified errors, and its recommendation follows
    this precedence over them: the 'Port 25 is blocked by your
    network/ISP...' text if every entry has blocked = true; else the
    'Unable to determine port 25 status...' text if some entry has
    blocked = 'unknown'; otherwise the 'DNS or network issues detected...'
    text. In particular, all five failing with code ENOTFOUND and a
    message that does not contain 'timeout' yields a recommendation that
    contains 'DNS or network issues'. *)
Theorem recommendation_precedence (w : World.t) (report : Report.t) :
  Forall (failed w) testTargets ->
  checkPort25Connectivity w = Fulfilled report ->
  Forall2 (failedWith w) testTargets (Report.errors report)
  /\ (Forall (fun e => Entry.blocked e = BlockedTrue) (Report.errors report) ->
      Report.recommendation report = Some blockedText)
  /\ (~ Forall (fun e => Entry.blocked e = BlockedTrue) (Report.errors report) ->
      Exists (fun e => Entry.blocked e = BlockedUnknown) (Report.errors report) ->
      Report.recommendation report = Some unknownText)
  /\ (~ Forall (fun e => Entry.blocked e = BlockedTrue) (Report.errors report) ->
      ~ Exists (fun e => Entry.blocked e = BlockedUnknown)
          (Report.errors report) ->
      Report.recommendation report = Some dnsText)
  /\ (Forall (fun t => exists error m,
                testSingleHost w (Target.host t) 5000 = Rejected error
                /\ RawError.code error = Some (js "ENOTFOUND")
                /\ RawError.message error = Some m
                /\ includes m (js "timeout") = false)
        testTargets ->
      exists text,
        Report.recommendation report = Some text
        /\ includes text (js "DNS or network issues") = true).
Proof.
  intros Hfailed Hcheck.
  apply check_fulfilled in Hcheck
    as [(pre & target & post & result & Hsplit & _ & Hhit & _)
       |(entries & Hall & ->)].
  { exfalso. rewrite Hsplit in Hfailed.
    apply Forall_app in Hfailed as [_ Hfailed].
    apply Forall_cons in Hfailed as [[error Herror] _]. congruence. }
  cbn [failureReport Report.errors Report.recommendation].
  pose proof (allBlocked_Forall entries) as Hblocked.
  pose proof (someUnknown_Exists entries) as Hunknown.
  split; [exact Hall|].
  split; [intros Hb; apply Hblocked in Hb; rewrite Hb; reflexivity|].
  assert (Hnot : ~ Forall (fun e => Entry.blocked e = BlockedTrue) entries ->
            forallb (fun e => bool_decide (Entry.blocked e = BlockedTrue))
              entries = false).
  { intros Hn. apply not_true_is_false. rewrite Hblocked. exact Hn. }
  split; [intros Hn Hu; rewrite (Hnot Hn); apply Hunknown in Hu; rewrite Hu;
          reflexivity|].
  assert (Hdns : ~ Forall (fun e => Entry.blocked e = BlockedTrue) entries ->
            ~ Exists (fun e => Entry.blocked e = BlockedUnknown) entries ->
            Some (if forallb (fun e => bool_decide
                                (Entry.blocked e = BlockedTrue)) entries
                  then blockedText
                  else if existsb (fun e => bool_decide
                                     (Entry.blocked e = BlockedUnknown)) entries
                       then unknownText else dnsText)
            = Some dnsText).
  { intros Hn Hu. rewrite (Hnot Hn).
    replace (existsb _ entries) with false; [reflexivity|].
    symmetry. apply not_true_is_false. rewrite Hunknown. exact Hu. }
  split; [exact Hdns|].
  intros Hnotfound. exists dnsText. split; [|reflexivity].
  assert (Hfalse : Forall (fun e => Entry.blocked e = BlockedFalse) entries).
  { clear -Hall Hnotfound.
    induction Hall as [|t entry ts entries Hentry _ IH]; [constructor|].
    apply Forall_cons in Hnotfound
      as [(error & m & Hprobe & Hcode & Hm & Hin) Hrest].
    constructor; [|apply IH, Hrest].
    destruct Hentry as (error' & classified & Hprobe' & Hclass & ->).
    assert (error' = error) as -> by congruence.
    rewrite (notFound_rule error m Hcode Hm Hin) in Hclass.
    injection Hclass as <-. reflexivity. }
  apply Hdns.
  - intros Htrue. inversion Hall as [|t entry ts rest _ _ Hts Heq]; subst.
    apply Forall_cons in Htrue as [Htrue _].
    apply Forall_cons in Hfalse as [Hf _]. congruence.
  - intros Hex. apply Exists_exists in Hex as (entry & Hin & Hu).
    rewrite Forall_forall in Hfalse. specialize (Hfalse entry Hin). congruence.
Qed.

Lemma recommendation_precedence_witness :
  exists report text,
    checkPort25Connectivity (failingWorld notFound) = Fulfilled report
    /\ Report.recommendation report = Some text
    /\ includes text (js "DNS or network issues") = true.
Proof.
  assert (Hfailed : Forall (failed (failingWorld notFound)) testTargets).
  { repeat (constructor; [exists notFound; reflexivity|]). constructor. }
  destruct (recommendation_precedence (failingWorld notFound) _
              Hfailed eq_refl) as (_ & _ & _ & _ & Hdns).
  destruct Hdns as (text & Htext & Hin).
  { repeat (constructor;
            [exists notFound, (js "DNS lookup failed"); repeat split|]).
    constructor. }
  eexists. exists text. split; [reflexivity|]. split; [exact Htext|exact Hin].
Defined.

(** Counterexample to C4: all five probes fail with code ENOTFOUND and the
    message 'DNS lookup timeout'; the timeout rule classifies each as
    blocked, and the recommendation is the 'Port 25 is blocked...' text,
    which does not contain 'DNS or network issues'. *)
Lemma notFound_with_timeout_message_is_blocked :
  exists report text,
    Forall (fun t =>
              testSingleHost (failingWorld notFoundSlow) (Target.host t) 5000
              = Rejected notFoundSlow) testTargets
    /\ RawError.code notFoundSlow = Some (js "ENOTFOUND")
    /\ checkPort25Connectivity (failingWorld notFoundSlow) = Fulfilled report
    /\ Report.recommendation report = Some text
    /\ text = blockedText
    /\ includes text (js "DNS or network issues") = false.
Proof.
  do 2 eexists. split; [repeat constructor|]. split; [reflexivity|].
  split; [reflexivity|]. split; [reflexivity|]. split; reflexivity.
Qed.

(** ** Further properties of the classifier *)

Lemma strictEq_literal (v : property) (lit : jsstring) :
  strictEq v lit = true -> v = Some lit.
Proof. apply strictEq_true. Qed.

(** The classification of an error, rule by rule: which rule fired and
    what it returned. *)
Lemma classify_cases (error : RawError.t) (classified : Classified.t) :
  classifyPort25Error error = Normal classified ->
  (RawError.code error = Some (js "ECONNREFUSED")
   /\ classified = Classified.make BlockedTrue
        (js "Connection refused - Port 25 likely blocked by firewall/ISP")
        (js "high") (RawError.code error))
  \/ (RawError.code error <> Some (js "ECONNREFUSED")
      /\ (RawError.code error = Some (js "ETIMEDOUT")
          \/ exists m, RawError.message error = Some m
                       /\ includes m (js "timeout") = true)
      /\ classified = Classified.make BlockedTrue
           (js "Connection timeout - Port 25 may be blocked or server unavailable")
           (js "medium") (Some (orElse (RawError.code error) (js "TIMEOUT"))))
  \/ (exists m, RawError.message error = Some m
                /\ includes m (js "timeout") = false)
     /\ ((RawError.code error = Some (js "ENETUNREACH")
           \/ RawError.code error = Some (js "EHOSTUNREACH"))
          /\ classified = Classified.make BlockedTrue
               (js "Network unreachable - Check network configuration")
               (js "high") (RawError.code error)
         \/ RawError.code error = Some (js "ENOTFOUND")
            /\ classified = Classified.make BlockedFalse
                 (js "DNS resolution failed - Server hostname not found")
                 (js "low") (RawError.code error)
         \/ RawError.code error = Some (js "EADDRINUSE")
            /\ classified = Classified.make BlockedFalse
                 (js "Address in use - Temporary issue, retry recommended")
                 (js "low") (RawError.code error)
         \/ (forall c, RawError.code error = Some c -> c ∉ recognisedCodes)
            /\ classified = Classified.make BlockedUnknown
                 (orElse (RawError.message error) (js "Unknown error"))
                 (js "medium")
                 (Some (orElse (RawError.code error) (js "UNKNOWN")))).
Proof.
  unfold classifyPort25Error, messageIncludes.
  destruct (strictEq (RawError.code error) (js "ECONNREFUSED")) eqn:Href.
  { intros [= <-]. left. split; [apply strictEq_true, Href|reflexivity]. }
  apply strictEq_false in Href.
  destruct (strictEq (RawError.code error) (js "ETIMEDOUT")) eqn:Htime.
  { intros [= <-]. right. left. apply strictEq_true in Htime. eauto. }
  apply strictEq_false in Htime.
  destruct (RawError.message error) as [m|] eqn:Hm; [|discriminate].
  destruct (includes m (js "timeout")) eqn:Hin.
  { intros [= <-]. right. left. repeat split; eauto. }
  assert (Hm' : exists m', Some m = Some m'
                            /\ includes m' (js "timeout") = false)
    by (exists m; done).
  destruct (strictEq (RawError.code error) (js "ENETUNREACH")) eqn:Hnet.
  { intros [= <-]. apply strictEq_true in Hnet. do 2 right.
    split; [exact Hm'|]. left. split; [left; exact Hnet|reflexivity]. }
  destruct (strictEq (RawError.code error) (js "EHOSTUNREACH")) eqn:Hhost.
  { intros [= <-]. apply strictEq_true in Hhost. do 2 right.
    split; [exact Hm'|]. left. split; [right; exact Hhost|reflexivity]. }
  destruct (strictEq (RawError.code error) (js "ENOTFOUND")) eqn:Hdns.
  { intros [= <-]. apply strictEq_true in Hdns. do 2 right.
    split; [exact Hm'|]. right. left. split; [exact Hdns|reflexivity]. }
  destruct (strictEq (RawError.code error) (js "EADDRINUSE")) eqn:Hadd.
  { intros [= <-]. apply strictEq_true in Hadd. do 2 right.
    split; [exact Hm'|]. do 2 right. left. split; [exact Hadd|reflexivity]. }
  intros [= <-]. do 2 right. split; [exact Hm'|]. do 3 right.
  split; [|reflexivity].
  apply strictEq_false in Hnet, Hhost, Hdns, Hadd.
  intros c Hc. unfold recognisedCodes.
  rewrite !elem_of_cons, elem_of_nil. intros [?|[?|[?|[?|[?|[?|[]]]]]]];
    congruence.
Qed.

Lemma orElse_truthy (v : property) (d : jsstring) :
  d <> [] -> orElse v d <> [].
Proof. destruct v as [[|c s]|]; simpl; done. Qed.

(** Closes the well-formedness facts of one rule's record. *)
Ltac wellformed_record :=
  repeat match goal with
         | |- _ /\ _ => split
         | |- _ <-> _ => split
         | |- exists code, _ = Some code /\ _ =>
           eexists; split; [reflexivity|]
         | |- orElse _ _ <> [] => apply orElse_truthy; discriminate
         | |- _ ∈ severities =>
           unfold severities; rewrite !elem_of_cons; auto
         end;
  try discriminate; try reflexivity.

(** X1. Whatever the classifier returns is well formed: errorCode is a
    non-empty string (never undefined), the reason is a non-empty string,
    the severity is 'low', 'medium' or 'high'; blocked is false exactly
    when the severity is 'low', blocked 'unknown' comes with severity
    'medium', and severity 'high' comes with blocked true. *)
Theorem classified_wellformed (error : RawError.t)
    (classified : Classified.t) :
  classifyPort25Error error = Normal classified ->
  (exists code, Classified.errorCode classified = Some code /\ code <> [])
  /\ Classified.reason classified <> []
  /\ Classified.severity classified ∈ severities
  /\ (Classified.blocked classified = BlockedFalse
      <-> Classified.severity classified = js "low")
  /\ (Classified.blocked classified = BlockedUnknown ->
      Classified.severity classified = js "medium")
  /\ (Classified.severity classified = js "high" ->
      Classified.blocked classified = BlockedTrue).
Proof.
  intros Hclass.
  destruct (classify_cases _ _ Hclass)
    as [[Hcode ->]
       |[(_ & _ & ->)
        |[_ [[[Hcode|Hcode] ->]|[[Hcode ->]|[[Hcode ->]|[_ ->]]]]]]];
    cbn [Classified.errorCode Classified.reason Classified.severity
         Classified.blocked]; rewrite ?Hcode; wellformed_record.
Qed.

Lemma classified_wellformed_witness :
  exists code,
    Classified.errorCode
      (Classified.make BlockedUnknown (js "Unknown error") (js "medium")
         (Some (js "EPROTO")))
    = Some code /\ code <> [].
Proof.
  apply (classified_wellformed protocolError
           (Classified.make BlockedUnknown (js "Unknown error") (js "medium")
              (Some (js "EPROTO")))).
  reflexivity.
Defined.

Lemma timeout_flag_exclusive (error : RawError.t) :
  mentionsTimeout error -> withoutTimeout error -> False.
Proof. intros (m & Hm & Hin) (m' & Hm' & Hin'). congruence. Qed.

Lemma recognised_blocking (c : jsstring) :
  c ∈ blockingCodes -> c ∈ recognisedCodes.
Proof.
  unfold blockingCodes, recognisedCodes. rewrite !elem_of_cons, !elem_of_nil.
  tauto.
Qed.

(** X2. The blocked verdict, read off the input: blocked is true exactly
    when the code is ECONNREFUSED, ETIMEDOUT, ENETUNREACH or EHOSTUNREACH
    or the message contains 'timeout'; it is false exactly when the code
    is ENOTFOUND or EADDRINUSE and the message does not contain 'timeout';
    it is 'unknown' exactly when the code is none of the six and the
    message does not contain 'timeout'. *)
Theorem blocked_verdict (error : RawError.t) (classified : Classified.t) :
  classifyPort25Error error = Normal classified ->
  (Classified.blocked classified = BlockedTrue
   <-> (exists c, RawError.code error = Some c /\ c ∈ blockingCodes)
       \/ mentionsTimeout error)
  /\ (Classified.blocked classified = BlockedFalse
      <-> (RawError.code error = Some (js "ENOTFOUND")
           \/ RawError.code error = Some (js "EADDRINUSE"))
          /\ withoutTimeout error)
  /\ (Classified.blocked classified = BlockedUnknown
      <-> (forall c, RawError.code error = Some c -> c ∉ recognisedCodes)
          /\ withoutTimeout error).
Proof.
  intros Hclass.
  assert (Hin : forall lit, RawError.code error = Some lit ->
                  lit ∈ blockingCodes ->
                  exists c, RawError.code error = Some c /\ c ∈ blockingCodes)
    by eauto.
  destruct (classify_cases _ _ Hclass)
    as [[Hcode ->]
       |[(Href & Hrule & ->)
        |[Hmsg [[Hcode ->]|[[Hcode ->]|[[Hcode ->]|[Hcode ->]]]]]]];
    cbn [Classified.blocked].
  - split; [split; [intros _; left; apply (Hin _ Hcode); repeat constructor
                   |reflexivity]|].
    split; (split; [discriminate|]).
    + intros [[H|H] _]; rewrite Hcode in H; discriminate.
    + intros [H _]. destruct (H _ Hcode). repeat constructor.
  - split; [split; [intros _|reflexivity]|].
    { destruct Hrule as [Hcode|Hm]; [left|right; exact Hm].
      apply (Hin _ Hcode). repeat constructor. }
    split; (split; [discriminate|]).
    + intros [[H|H] Hno]; destruct Hrule as [Hcode|Hm];
        try (rewrite Hcode in H; discriminate);
        destruct (timeout_flag_exclusive _ Hm Hno).
    + intros [H Hno]. destruct Hrule as [Hcode|Hm];
        [|destruct (timeout_flag_exclusive _ Hm Hno)].
      destruct (H _ Hcode). repeat constructor.
  - split; [split; [intros _; left|reflexivity]|].
    { destruct Hcode as [Hcode|Hcode]; apply (Hin _ Hcode); repeat constructor. }
    split; (split; [discriminate|]).
    + intros [[H|H] _]; destruct Hcode as [Hcode|Hcode];
        rewrite Hcode in H; discriminate.
    + intros [H _]. destruct Hcode as [Hcode|Hcode];
        destruct (H _ Hcode); repeat constructor.
  - split; [split; [discriminate|]|].
    { intros [(c & Hc & Hblock)|Hm];
        [|destruct (timeout_flag_exclusive _ Hm Hmsg)].
      rewrite Hcode in Hc. injection Hc as <-. revert Hblock.
      unfold blockingCodes. rewrite !elem_of_cons, elem_of_nil.
      intros [?|[?|[?|[?|[]]]]]; discriminate. }
    split; [split; [intros _; split; [left; exact Hcode|exact Hmsg]
                   |reflexivity]|].
    split; [discriminate|].
    intros [H _]. destruct (H _ Hcode). repeat constructor.
  - split; [split; [discriminate|]|].
    { intros [(c & Hc & Hblock)|Hm];
        [|destruct (timeout_flag_exclusive _ Hm Hmsg)].
      rewrite Hcode in Hc. injection Hc as <-. revert Hblock.
      unfold blockingCodes. rewrite !elem_of_cons, elem_of_nil.
      intros [?|[?|[?|[?|[]]]]]; discriminate. }
    split; [split; [intros _; split; [right; exact Hcode|exact Hmsg]
                   |reflexivity]|].
    split; [discriminate|].
    intros [H _]. destruct (H _ Hcode). repeat constructor.
  - split; [split; [discriminate|]|].
    { intros [(c & Hc & Hblock)|Hm];
        [|destruct (timeout_flag_exclusive _ Hm Hmsg)].
      destruct (Hcode _ Hc). apply recognised_blocking, Hblock. }
    split; [split; [discriminate|]|].
    { intros [[H|H] _]; destruct (Hcode _ H); repeat constructor. }
    split; [intros _; split; [exact Hcode|exact Hmsg]|reflexivity].
Qed.

Lemma blocked_verdict_witness :
  Classified.blocked
    (Classified.make BlockedTrue
       (js "Connection timeout - Port 25 may be blocked or server unavailable")
       (js "medium") (Some (js "ENOTFOUND")))
  = BlockedTrue
  <-> (exists c, RawError.code notFoundSlow = Some c /\ c ∈ blockingCodes)
      \/ mentionsTimeout notFoundSlow.
Proof.
  apply (blocked_verdict notFoundSlow
           (Classified.make BlockedTrue
              (js "Connection timeout - Port 25 may be blocked or server unavailable")
              (js "medium") (Some (js "ENOTFOUND")))).
  reflexivity.
Defined.

(** X3. The classifier echoes the code it is given: whenever the input's
    code is a non-empty string, errorCode is that code, under every rule.
    Only when the code is absent or empty does it make one up: 'TIMEOUT'
    when the message contains 'timeout', 'UNKNOWN' otherwise. *)
Theorem errorCode_echo (error : RawError.t) (classified : Classified.t) :
  classifyPort25Error error = Normal classified ->
  (forall code,
     RawError.code error = Some code -> code <> [] ->
     Classified.errorCode classified = Some code)
  /\ (RawError.code error = None \/ RawError.code error = Some [] ->
      (Classified.errorCode classified = Some (js "TIMEOUT")
       /\ mentionsTimeout error)
      \/ (Classified.errorCode classified = Some (js "UNKNOWN")
          /\ withoutTimeout error)).
Proof.
  intros Hclass.
  assert (Hor : forall d code, RawError.code error = Some code -> code <> [] ->
                  Some (orElse (RawError.code error) d) = Some code).
  { intros d [|c s] -> Hne; [done|reflexivity]. }
  assert (Hdefault : forall d,
            RawError.code error = None \/ RawError.code error = Some [] ->
            orElse (RawError.code error) d = d).
  { intros d [-> | ->]; reflexivity. }
  destruct (classify_cases _ _ Hclass)
    as [[Hcode ->]
       |[(Href & Hrule & ->)
        |[Hmsg [[Hcode ->]|[[Hcode ->]|[[Hcode ->]|[Hcode ->]]]]]]];
    cbn [Classified.errorCode].
  - split; [intros code Hc _; exact Hc|].
    intros [H|H]; rewrite Hcode in H; discriminate.
  - split; [intros code Hc Hne; apply Hor; done|].
    intros Habsent. left. rewrite (Hdefault _ Habsent). split; [reflexivity|].
    destruct Hrule as [Hcode|Hm]; [|exact Hm].
    destruct Habsent as [H|H]; rewrite Hcode in H; discriminate.
  - split; [intros code Hc _; exact Hc|].
    intros [H|H]; destruct Hcode as [Hcode|Hcode];
      rewrite Hcode in H; discriminate.
  - split; [intros code Hc _; exact Hc|].
    intros [H|H]; rewrite Hcode in H; discriminate.
  - split; [intros code Hc _; exact Hc|].
    intros [H|H]; rewrite Hcode in H; discriminate.
  - split; [intros code Hc Hne; apply Hor; done|].
    intros Habsent. right. rewrite (Hdefault _ Habsent). done.
Qed.

Lemma errorCode_echo_witness :
  Classified.errorCode
    (Classified.make BlockedUnknown (js "Unknown error") (js "medium")
       (Some (js "EPROTO")))
  = Some (js "EPROTO").
Proof.
  destruct (errorCode_echo protocolError
              (Classified.make BlockedUnknown (js "Unknown error")
                 (js "medium") (Some (js "EPROTO"))) eq_refl) as [Hecho _].
  apply (Hecho (js "EPROTO")).
  - reflexivity.
  - discriminate.
Defined.

(** ** Further properties of the prober *)

(** What one handler call does to a pending promise. *)
Lemma handle_pending (startTime : Z) (st : Probe.t) (ev : Z * SocketEvent) :
  Probe.promise st = Pending ->
  match ev.2 with
  | EvConnect => Probe.promise (handle startTime st ev) = Pending
  | EvData data =>
    Probe.promise (handle startTime st ev)
    = if startsWith (trim data) (js "220")
      then Fulfilled (ProbeResult.make true (ev.1 - startTime) (trim data))
      else Rejected
             (newError (js "Invalid SMTP banner received: " ++ trim data))
  | EvTimeout =>
    Probe.promise (handle startTime st ev)
    = Rejected (newError (js "Connection timeout"))
  | EvError err => Probe.promise (handle startTime st ev) = Rejected err
  | EvClose =>
    Probe.promise (handle startTime st ev) = Pending
    \/ Probe.promise (handle startTime st ev) = Rejected closedWithoutBanner
  end.
Proof.
  intros Hp. destruct ev as [now [|data| |err|]]; simpl.
  - exact Hp.
  - apply onData_pending, Hp.
  - apply reject_pending, Hp.
  - apply reject_pending, Hp.
  - unfold onClose. case (_ && _); [right|left; exact Hp].
    apply reject_pending, Hp.
Qed.

(** From a pending promise, either the promise is still pending after all
    the events, or one of them settled it and the outcome is the one that
    event's handler gave. *)
Lemma deliver_first_settling (startTime : Z) (evs : list (Z * SocketEvent)) :
  forall st,
    Probe.promise st = Pending ->
    Probe.promise (deliver startTime st evs) = Pending
    \/ exists pre ev post,
         evs = pre ++ ev :: post
         /\ Probe.promise (deliver startTime st pre) = Pending
         /\ settled (Probe.promise
                       (handle startTime (deliver startTime st pre) ev)) = true
         /\ Probe.promise (deliver startTime st evs)
            = Probe.promise (handle startTime (deliver startTime st pre) ev).
Proof.
  induction evs as [|ev evs IH]; intros st Hp; [left; exact Hp|].
  simpl. destruct (settled (Probe.promise (handle startTime st ev))) eqn:Hset.
  - right. exists [], ev, evs. simpl. repeat split; try done.
    apply deliver_settled, Hset.
  - assert (Hp' : Probe.promise (handle startTime st ev) = Pending).
    { destruct (Probe.promise (handle startTime st ev)); done. }
    destruct (IH _ Hp') as [Hpending|(pre & ev' & post & -> & H1 & H2 & H3)];
      [left; exact Hpending|].
    right. exists (ev :: pre), ev', post. done.
Qed.

Lemma trimStart_head (s : jsstring) (c : code_unit) (rest : jsstring) :
  trimStart s = c :: rest -> isWhiteSpace c = false.
Proof.
  induction s as [|d s IH]; simpl; [discriminate|].
  destruct (isWhiteSpace d) eqn:Hd; [exact IH|].
  intros [= <- _]. exact Hd.
Qed.

Lemma trimStart_suffix (s : jsstring) :
  exists ws, s = ws ++ trimStart s.
Proof.
  induction s as [|d s [ws IH]]; simpl; [exists []; done|].
  destruct (isWhiteSpace d).
  - exists (d :: ws). simpl. rewrite <- IH. reflexivity.
  - exists []. reflexivity.
Qed.

Lemma trim_trimmed (s : jsstring) : trimmed (trim s).
Proof.
  unfold trim, trimEnd. split.
  - intros c rest Heq.
    destruct (trimStart_suffix (reverse (trimStart s))) as [ws Hws].
    apply (f_equal reverse) in Hws.
    rewrite reverse_involutive, reverse_app, Heq in Hws.
    apply (trimStart_head s c (rest ++ reverse ws)). exact Hws.
  - intros c init Heq. apply (f_equal reverse) in Heq.
    rewrite reverse_involutive, reverse_app in Heq.
    apply (trimStart_head _ _ _ Heq).
Qed.

Lemma trimStart_id (s : jsstring) :
  (forall c rest, s = c :: rest -> isWhiteSpace c = false) ->
  trimStart s = s.
Proof.
  destruct s as [|c s]; [reflexivity|]. intros H. simpl.
  rewrite (H c s eq_refl). reflexivity.
Qed.

Lemma trim_id (s : jsstring) : trimmed s -> trim s = s.
Proof.
  intros [Hhead Hlast]. unfold trim, trimEnd.
  rewrite (trimStart_id s Hhead), trimStart_id; [apply reverse_involutive|].
  intros c rest Heq. apply (Hlast c (reverse rest)).
  rewrite <- (reverse_involutive s), Heq, reverse_cons. reflexivity.
Qed.

Lemma elem_of_middle {A} (pre post : list A) (x : A) : x ∈ pre ++ x :: post.
Proof. apply elem_of_app. right. left. Qed.

(** What a resolved probe was resolved with: the record the data handler
    builds from one delivered chunk that starts, once trimmed, with
    '220'. *)
Lemma testSingleHost_fulfilled (w : World.t) (hostname : jsstring)
    (timeout : Z) (result : ProbeResult.t) :
  testSingleHost w hostname timeout = Fulfilled result ->
  Attempt.connectThrows (World.socket w hostname timeout) = None
  /\ exists (now : Z) (data : jsstring),
       (now, EvData data) ∈ Attempt.events (World.socket w hostname timeout)
       /\ startsWith (trim data) (js "220") = true
       /\ result
          = ProbeResult.make true
              (now - Attempt.startTime (World.socket w hostname timeout))
              (trim data).
Proof.
  unfold testSingleHost, runAttempt.
  set (a := World.socket w hostname timeout). intros Hres.
  destruct (Attempt.connectThrows a) as [err|] eqn:Hthrown.
  { rewrite deliver_settled in Hres by reflexivity. discriminate Hres. }
  split; [reflexivity|].
  destruct (deliver_first_settling (Attempt.startTime a) (Attempt.events a)
              (executor None) eq_refl)
    as [Hp|(pre & [now ev] & post & Hevs & Hpre & _ & Hlast)];
    [congruence|].
  rewrite Hres in Hlast. pose proof (handle_pending (Attempt.startTime a)
    _ (now, ev) Hpre) as Hstep.
  destruct ev as [|data| |err|]; cbn [fst snd] in Hstep;
    try (rewrite Hstep in Hlast; discriminate);
    [|destruct Hstep as [Hstep|Hstep]; rewrite Hstep in Hlast; discriminate].
  rewrite Hstep in Hlast.
  destruct (startsWith (trim data) (js "220")) eqn:Hbanner; [|discriminate].
  injection Hlast as ->. exists now, data. rewrite Hevs.
  split; [apply elem_of_middle|done].
Qed.

(** X4. The prober resolves only on a valid greeting: whenever
    testSingleHost resolves, connect did not throw, success is true, the
    banner starts with '220', has no whitespace at either end (trimming it
    again changes nothing), and banner and responseTime come from one data
    event the socket delivered: the trimmed text of its chunk and its
    clock reading minus the start time. *)
Theorem resolves_only_on_greeting (w : World.t) (hostname : jsstring)
    (timeout : Z) (result : ProbeResult.t) :
  testSingleHost w hostname timeout = Fulfilled result ->
  Attempt.connectThrows (World.socket w hostname timeout) = None
  /\ ProbeResult.success result = true
  /\ startsWith (ProbeResult.banner result) (js "220") = true
  /\ trimmed (ProbeResult.banner result)
  /\ trim (ProbeResult.banner result) = ProbeResult.banner result
  /\ exists (now : Z) (data : jsstring),
       (now, EvData data) ∈ Attempt.events (World.socket w hostname timeout)
       /\ ProbeResult.banner result = trim data
       /\ ProbeResult.responseTime result
          = (now - Attempt.startTime (World.socket w hostname timeout))%Z.
Proof.
  intros Hres.
  destruct (testSingleHost_fulfilled _ _ _ _ Hres)
    as (Hthrown & now & data & Hin & Hstarts & ->).
  cbn [ProbeResult.success ProbeResult.banner ProbeResult.responseTime].
  split; [exact Hthrown|]. split; [reflexivity|]. split; [exact Hstarts|].
  split; [apply trim_trimmed|]. split; [apply trim_id, trim_trimmed|].
  exists now, data. done.
Qed.

Lemma resolves_only_on_greeting_witness :
  startsWith (js "220 mx.google.com ESMTP ready") (js "220") = true
  /\ trim (js "220 mx.google.com ESMTP ready")
     = js "220 mx.google.com ESMTP ready".
Proof.
  destruct (resolves_only_on_greeting greetingWorld (js "mx1.zoho.com") 5000
              (ProbeResult.make true 20 (js "220 mx.google.com ESMTP ready"))
              eq_refl) as (_ & _ & Hstarts & _ & Htrim & _).
  split; [exact Hstarts|exact Htrim].
Defined.

(** With only connect and close events, a pending promise stays pending
    unless a close finds the socket connected. *)
Lemma quiet_still_pending (startTime : Z) (evs : list (Z * SocketEvent)) :
  Forall (fun ev => destroys ev = false) evs ->
  forall st,
    Probe.smtpBanner st = [] ->
    Probe.promise st = Pending ->
    Probe.promise (deliver startTime st evs) = Pending
    <-> ~ exists pre ev post,
            evs = pre ++ ev :: post
            /\ isClose ev = true
            /\ (Probe.connected st = true
                \/ Exists (fun e => isConnect e = true) pre).
Proof.
  induction 1 as [|ev evs Hev _ IH]; intros st Hbanner Hp.
  { split; [|done]. intros _ (pre & ev & post & Heq & _).
    destruct pre; discriminate. }
  simpl. destruct ev as [now [|data| |err|]]; try discriminate Hev.
  - rewrite (IH (onConnect st) Hbanner Hp). simpl. split.
    + intros Hno (pre & ev & post & Heq & Hclose & _).
      destruct pre as [|e pre]; simplify_eq/=.
      apply Hno. exists pre, ev, post. auto.
    + intros Hno (pre & ev & post & -> & Hclose & _). apply Hno.
      exists ((now, EvConnect) :: pre), ev, post.
      repeat split; [exact Hclose|]. right. left. reflexivity.
  - simpl. unfold onClose. rewrite Hbanner. simpl. rewrite andb_true_r.
    destruct (Probe.connected st) eqn:Hconn.
    + rewrite deliver_settled by apply reject_settled.
      rewrite (reject_pending _ _ Hp). split; [discriminate|].
      intros Hno. destruct Hno. exists [], (now, EvClose), evs. auto.
    + rewrite (IH st Hbanner Hp), Hconn. split.
      * intros Hno (pre & ev & post & Heq & Hclose & [?|Hex]); [done|].
        destruct pre as [|e pre]; [inversion Hex|].
        simplify_eq/=. apply Hno. exists pre, ev, post.
        repeat split; [exact Hclose|]. right.
        apply Exists_cons in Hex as [?|?]; done.
      * intros Hno (pre & ev & post & -> & Hclose & [?|Hex]); [done|].
        apply Hno. exists ((now, EvClose) :: pre), ev, post.
        repeat split; [exact Hclose|]. right. right. exact Hex.
Qed.

Lemma filter_length_zero {A} (P : A -> bool) (l : list A) :
  length (filter (fun x => P x = true) l) = 0 ->
  Forall (fun x => P x = false) l.
Proof.
  induction l as [|x l IH]; [constructor|].
  rewrite filter_cons. destruct (decide (P x = true)) as [Hx|Hx]; simpl.
  - discriminate.
  - intros Hl. constructor; [apply not_true_is_false, Hx|apply IH, Hl].
Qed.

(** X5. When the prober hangs: the promise of testSingleHost is still
    pending after all the socket's events exactly when connect did not
    throw, no data, timeout or error event was delivered, and no close
    event came after a connect event. *)
Theorem pending_iff_nothing_terminal (w : World.t) (hostname : jsstring)
    (timeout : Z) :
  testSingleHost w hostname timeout = Pending
  <-> Attempt.connectThrows (World.socket w hostname timeout) = None
      /\ Forall (fun ev => destroys ev = false)
           (Attempt.events (World.socket w hostname timeout))
      /\ ~ closesAfterConnect
             (Attempt.events (World.socket w hostname timeout)).
Proof.
  unfold testSingleHost, runAttempt, closesAfterConnect.
  set (a := World.socket w hostname timeout).
  assert (Hquiet : Forall (fun ev => destroys ev = false) (Attempt.events a) ->
            Probe.promise (deliver (Attempt.startTime a) (executor None)
                             (Attempt.events a)) = Pending
            <-> ~ exists pre ev post,
                    Attempt.events a = pre ++ ev :: post
                    /\ isClose ev = true
                    /\ Exists (fun e => isConnect e = true) pre).
  { intros Hq.
    rewrite (quiet_still_pending _ _ Hq (executor None) eq_refl eq_refl).
    simpl. split; intros Hno (pre & ev & post & Heq & Hclose & Hex);
      apply Hno; exists pre, ev, post; repeat split; try done.
    - right. exact Hex.
    - destruct Hex; done. }
  split.
  - intros Hp.
    destruct (Attempt.connectThrows a) as [err|] eqn:Hthrown.
    { rewrite deliver_settled in Hp by reflexivity. discriminate Hp. }
    split; [reflexivity|].
    assert (Hq : Forall (fun ev => destroys ev = false) (Attempt.events a)).
    { apply filter_length_zero.
      pose proof (deliver_fresh (Attempt.startTime a) (executor None)
                    (Attempt.events a) (executor_fresh None) Hp)
        as [Hzero _].
      rewrite deliver_destroyCalls in Hzero. exact Hzero. }
    split; [exact Hq|]. apply Hquiet; done.
  - intros (-> & Hq & Hno). apply Hquiet; done.
Qed.

Lemma pending_iff_nothing_terminal_witness :
  testSingleHost (worldOf (fun _ => closeOnly)) (js "mx1.zoho.com") 5000
  = Pending.
Proof.
  apply (pending_iff_nothing_terminal (worldOf (fun _ => closeOnly))
           (js "mx1.zoho.com") 5000).
  split; [reflexivity|]. split; [repeat constructor|].
  intros (pre & ev & post & Heq & _ & Hex).
  destruct pre as [|e pre]; [inversion Hex|].
  destruct pre; discriminate Heq.
Defined.

Lemma handle_connected (startTime : Z) (st : Probe.t) (ev : Z * SocketEvent) :
  Probe.connected (handle startTime st ev) = true ->
  Probe.connected st = true \/ isConnect ev = true.
Proof.
  destruct ev as [now [|data| |err|]]; simpl; auto.
  - unfold onData, resolve, reject. simpl.
    case (startsWith _ _); destruct (Probe.promise st); simpl; auto.
  - unfold onTimeout, reject. simpl. destruct (Probe.promise st); simpl; auto.
  - unfold onError, reject. simpl. destruct (Probe.promise st); simpl; auto.
  - unfold onClose, reject. case (_ && _); [|auto].
    destruct (Probe.promise st); simpl; auto.
Qed.

Lemma deliver_connected (startTime : Z) (evs : list (Z * SocketEvent)) :
  forall st,
    Probe.connected (deliver startTime st evs) = true ->
    Probe.connected st = true \/ Exists (fun e => isConnect e = true) evs.
Proof.
  induction evs as [|ev evs IH]; intros st; simpl; [auto|].
  intros Hc. destruct (IH _ Hc) as [Hst|Hex].
  - destruct (handle_connected _ _ _ Hst); [left|right; left]; done.
  - right. right. exact Hex.
Qed.

(** X6. The first terminal event decides a failure as it is: when the
    timeout event arrives while the promise is pending, the prober rejects
    with the error 'Connection timeout'; when an error event arrives while
    the promise is pending, the prober rejects with that very error,
    code and message untouched; later events change nothing. *)
Theorem first_terminal_rejects (w : World.t) (hostname : jsstring)
    (timeout : Z) (pre post : list (Z * SocketEvent)) (ev : Z * SocketEvent) :
  Attempt.events (World.socket w hostname timeout) = pre ++ ev :: post ->
  Probe.promise (stateAfter (World.socket w hostname timeout) pre) = Pending ->
  (ev.2 = EvTimeout ->
   testSingleHost w hostname timeout
   = Rejected (newError (js "Connection timeout")))
  /\ (forall err, ev.2 = EvError err ->
      testSingleHost w hostname timeout = Rejected err).
Proof.
  intros Hevs Hp.
  assert (Hevs' : Attempt.events (World.socket w hostname timeout)
                  = (pre ++ [ev]) ++ post)
    by (rewrite Hevs, <- app_assoc; reflexivity).
  pose proof (handle_pending
    (Attempt.startTime (World.socket w hostname timeout)) _ ev Hp) as Hstep.
  rewrite <- stateAfter_snoc in Hstep.
  split; [intros Hev|intros err Hev]; rewrite Hev in Hstep;
    rewrite (testSingleHost_settled w hostname timeout _ _ Hevs');
    rewrite Hstep; reflexivity.
Qed.

Lemma first_terminal_rejects_witness :
  testSingleHost (failingWorld notFound) (js "mx1.zoho.com") 5000
  = Rejected notFound.
Proof.
  destruct (first_terminal_rejects (failingWorld notFound) (js "mx1.zoho.com")
              5000 [] [(11%Z, EvClose)] (10%Z, EvError notFound)
              eq_refl eq_refl) as [_ Herr].
  apply Herr. reflexivity.
Defined.

(** X7. The prober rejects only with the errors it is given or the three
    it makes itself. If connect throws, it rejects with the thrown error
    whatever the socket emits afterwards. Otherwise a rejection value is
    the error of a delivered error event; or 'Connection timeout', after a
    delivered timeout event; or 'Connection closed without receiving SMTP
    banner', after a close event that followed a connect event; or
    'Invalid SMTP banner received: ' followed by the trimmed text of a
    delivered chunk that does not start with '220'. *)
Theorem rejection_provenance (w : World.t) (hostname : jsstring)
    (timeout : Z) :
  (forall err,
     Attempt.connectThrows (World.socket w hostname timeout) = Some err ->
     testSingleHost w hostname timeout = Rejected err)
  /\ (forall e,
        Attempt.connectThrows (World.socket w hostname timeout) = None ->
        testSingleHost w hostname timeout = Rejected e ->
        (exists now,
            (now, EvError e)
            ∈ Attempt.events (World.socket w hostname timeout))
        \/ (e = newError (js "Connection timeout")
            /\ exists now,
                 (now, EvTimeout)
                 ∈ Attempt.events (World.socket w hostname timeout))
        \/ (e = closedWithoutBanner
            /\ closesAfterConnect
                 (Attempt.events (World.socket w hostname timeout)))
        \/ (exists now data,
              (now, EvData data)
              ∈ Attempt.events (World.socket w hostname timeout)
              /\ startsWith (trim data) (js "220") = false
              /\ e = newError (js "Invalid SMTP banner received: "
                               ++ trim data))).
Proof.
  unfold testSingleHost, runAttempt.
  set (a := World.socket w hostname timeout). split.
  { intros err ->. rewrite deliver_settled by reflexivity. reflexivity. }
  intros e -> Hrej.
  destruct (deliver_first_settling (Attempt.startTime a) (Attempt.events a)
              (executor None) eq_refl)
    as [Hp|(pre & [now ev] & post & Hevs & Hpre & _ & Hlast)];
    [congruence|].
  rewrite Hrej in Hlast.
  pose proof (handle_pending (Attempt.startTime a) _ (now, ev) Hpre) as Hstep.
  destruct ev as [|data| |err|]; cbn [fst snd] in Hstep.
  - rewrite Hstep in Hlast. discriminate.
  - rewrite Hstep in Hlast. do 3 right.
    destruct (startsWith (trim data) (js "220")) eqn:Hbanner; [discriminate|].
    injection Hlast as ->. exists now, data. rewrite Hevs.
    split; [apply elem_of_middle|done].
  - rewrite Hstep in Hlast. injection Hlast as ->. right. left.
    split; [reflexivity|]. exists now. rewrite Hevs. apply elem_of_middle.
  - rewrite Hstep in Hlast. injection Hlast as ->. left.
    exists now. rewrite Hevs. apply elem_of_middle.
  - destruct Hstep as [Hstep|Hstep]; rewrite Hstep in Hlast;
      [discriminate|]. injection Hlast as ->. do 2 right. left.
    split; [reflexivity|]. exists pre, (now, EvClose), post.
    repeat split; [exact Hevs|].
    assert (Hconn : Probe.connected
                      (deliver (Attempt.startTime a) (executor None) pre)
                    = true).
    { set (st := deliver (Attempt.startTime a) (executor None) pre) in *.
      change (Probe.promise (onClose st) = Rejected closedWithoutBanner)
        in Hstep.
      unfold onClose in Hstep.
      destruct (Probe.connected st); [reflexivity|].
      cbn [andb] in Hstep. rewrite Hpre in Hstep. discriminate. }
    destruct (deliver_connected _ _ _ Hconn) as [Hinit|Hex];
      [discriminate Hinit|exact Hex].
Qed.

Lemma rejection_provenance_witness :
  testSingleHost (worldOf (fun _ => silentClose)) (js "mx1.zoho.com") 5000
  = Rejected closedWithoutBanner
  /\ closesAfterConnect silentClose.
Proof.
  destruct (rejection_provenance (worldOf (fun _ => silentClose))
              (js "mx1.zoho.com") 5000) as [_ Hprov].
  destruct (Hprov closedWithoutBanner eq_refl eq_refl)
    as [[now Hin]|[[Heq _]|[[_ Hclose]|(now & data & Hin & _)]]].
  - exfalso. unfold silentClose in Hin. simpl in Hin.
    rewrite !elem_of_cons, elem_of_nil in Hin.
    destruct Hin as [?|[?|[]]]; discriminate.
  - discriminate Heq.
  - split; [reflexivity|exact Hclose].
  - exfalso. unfold silentClose in Hin. simpl in Hin.
    rewrite !elem_of_cons, elem_of_nil in Hin.
    destruct Hin as [?|[?|[]]]; discriminate.
Defined.

(** The text in front of the banner in the invalid-banner message holds
    no 't', so 'timeout' can only occur in the banner itself. *)
Lemma invalid_banner_includes (banner : jsstring) :
  includes (js "Invalid SMTP banner received: " ++ banner) (js "timeout")
  = includes banner (js "timeout").
Proof. reflexivity. Qed.

(** X8. How the classifier sees the three errors the prober makes itself:
    'Connection timeout' is classified blocked with errorCode 'TIMEOUT';
    'Connection closed without receiving SMTP banner' is classified
    'unknown' with that message as reason and errorCode 'UNKNOWN'; an
    invalid-banner error is classified by the banner's text: blocked with
    errorCode 'TIMEOUT' when the banner contains 'timeout', otherwise
    'unknown' with the whole message as reason and errorCode 'UNKNOWN'. *)
Theorem own_errors_classified :
  classifyPort25Error (newError (js "Connection timeout"))
  = Normal
      (Classified.make BlockedTrue
         (js "Connection timeout - Port 25 may be blocked or server unavailable")
         (js "medium") (Some (js "TIMEOUT")))
  /\ classifyPort25Error closedWithoutBanner
     = Normal
         (Classified.make BlockedUnknown
            (js "Connection closed without receiving SMTP banner")
            (js "medium") (Some (js "UNKNOWN")))
  /\ forall banner,
       classifyPort25Error
         (newError (js "Invalid SMTP banner received: " ++ banner))
       = Normal
           (if includes banner (js "timeout")
            then Classified.make BlockedTrue
                   (js "Connection timeout - Port 25 may be blocked or server unavailable")
                   (js "medium") (Some (js "TIMEOUT"))
            else Classified.make BlockedUnknown
                   (js "Invalid SMTP banner received: " ++ banner)
                   (js "medium") (Some (js "UNKNOWN"))).
Proof.
  split; [reflexivity|]. split; [reflexivity|].
  intros banner. unfold classifyPort25Error, newError, messageIncludes.
  cbn [RawError.code RawError.message strictEq orb].
  rewrite invalid_banner_includes.
  destruct (includes banner (js "timeout")); reflexivity.
Qed.

(** ** Further properties of the multi-host check *)

Lemma testSingleHost_agree (w w' : World.t) (hostname : jsstring) (timeout : Z) :
  World.socket w hostname timeout = World.socket w' hostname timeout ->
  testSingleHost w hostname timeout = testSingleHost w' hostname timeout.
Proof. unfold testSingleHost. intros ->. reflexivity. Qed.

Lemma checkLoop_attempted (w : World.t) (targets : list Target.t)
    (attempted : list jsstring) (errors : list Entry.t) (report : Report.t) :
  checkLoop w targets attempted errors = Fulfilled report ->
  attempted `prefix_of` Report.attemptedHosts report.
Proof.
  intros Hloop. apply checkLoop_fulfilled in Hloop
    as [(pre & target & post & result & entries & _ & _ & _ & ->)
       |(entries & _ & ->)]; simpl; eexists; reflexivity.
Qed.

(** A run that returns a report returns the same report in every world
    that has the same clock and the same sockets for the hosts the report
    lists as attempted. *)
Lemma checkLoop_agree (w w' : World.t) (targets : list Target.t) :
  World.startTime w = World.startTime w' ->
  World.endTime w = World.endTime w' ->
  World.timestamp w = World.timestamp w' ->
  forall attempted errors report,
    checkLoop w targets attempted errors = Fulfilled report ->
    (forall h, h ∈ Report.attemptedHosts report ->
               World.socket w h 5000 = World.socket w' h 5000) ->
    checkLoop w' targets attempted errors = Fulfilled report.
Proof.
  intros Hstart Hend Hstamp.
  induction targets as [|target rest IH]; intros attempted errors report;
    simpl.
  { intros [= <-] _. unfold failureReport. rewrite Hstart, Hend, Hstamp.
    reflexivity. }
  intros Hloop Hagree.
  assert (Hhost : Target.host target ∈ Report.attemptedHosts report).
  { destruct (testSingleHost w (Target.host target) 5000) as [|result|error];
      [discriminate| |].
    - injection Hloop as <-. simpl. apply elem_of_app. right. left.
    - destruct (classifyPort25Error error); [|discriminate].
      apply checkLoop_attempted in Hloop as [k ->].
      rewrite <- app_assoc. apply elem_of_app. right. left. }
  rewrite <- (testSingleHost_agree w w' _ _ (Hagree _ Hhost)).
  destruct (testSingleHost w (Target.host target) 5000) as [|result|error];
    [discriminate| |].
  - injection Hloop as <-. unfold successReport.
    rewrite Hstart, Hend, Hstamp. reflexivity.
  - destruct (classifyPort25Error error); [|discriminate].
    apply IH; done.
Qed.

(** X9. No host beyond the attempted ones matters. If the check returns a
    report in one environment, it returns the same report in every
    environment with the same clock readings whose sockets behave the
    same for the hosts in the report's attemptedHosts; what the sockets of
    the remaining targets would do is never looked at. *)
Theorem later_hosts_never_contacted (w w' : World.t) (report : Report.t) :
  checkPort25Connectivity w = Fulfilled report ->
  agreeOn (Report.attemptedHosts report) w w' ->
  checkPort25Connectivity w' = Fulfilled report.
Proof.
  intros Hcheck (Hstart & Hend & Hstamp & Hsockets).
  apply (checkLoop_agree w w' testTargets Hstart Hend Hstamp [] [] report
           Hcheck Hsockets).
Qed.

Lemma later_hosts_never_contacted_witness :
  checkPort25Connectivity lonelyWorld = checkPort25Connectivity greetingWorld.
Proof.
  refine (eq_trans _ (eq_sym (eq_refl :
            checkPort25Connectivity greetingWorld = Fulfilled _))).
  apply (later_hosts_never_contacted greetingWorld lonelyWorld).
  - reflexivity.
  - repeat split. intros h Hh. simpl in Hh.
    apply list_elem_of_singleton in Hh as ->. reflexivity.
Defined.

(** The loop walks past every target whose probe failed and was
    classified. *)
Lemma checkLoop_skip (w : World.t) (pre : list Target.t)
    (entries : list Entry.t) :
  Forall2 (failedWith w) pre entries ->
  forall rest attempted errors,
    checkLoop w (pre ++ rest) attempted errors
    = checkLoop w rest (attempted ++ (Target.host <$> pre))
        (errors ++ entries).
Proof.
  induction 1 as [|target entry pre entries (e & c & Hprobe & Hclass & ->) _ IH];
    intros rest attempted errors; simpl.
  - rewrite !app_nil_r. reflexivity.
  - rewrite Hprobe, Hclass, IH, <- !app_assoc. reflexivity.
Qed.

(** Where a loop that returns no report stopped. *)
Lemma checkLoop_unfinished (w : World.t) (targets : list Target.t) :
  forall attempted errors,
    (forall report,
       checkLoop w targets attempted errors <> Fulfilled report) ->
    exists pre target post entries,
      targets = pre ++ target :: post
      /\ Forall2 (failedWith w) pre entries
      /\ (testSingleHost w (Target.host target) 5000 = Pending
          /\ checkLoop w targets attempted errors = Pending
          \/ exists error x,
               testSingleHost w (Target.host target) 5000 = Rejected error
               /\ classifyPort25Error error = Throw x
               /\ checkLoop w targets attempted errors = Rejected x).
Proof.
  induction targets as [|target rest IH]; intros attempted errors; simpl.
  { intros Hno. destruct (Hno _ eq_refl). }
  destruct (testSingleHost w (Target.host target) 5000)
    as [|result|error] eqn:Hprobe.
  - intros _. exists [], target, rest, []. repeat split; [constructor|auto].
  - intros Hno. destruct (Hno _ eq_refl).
  - destruct (classifyPort25Error error) as [classified|x] eqn:Hclass.
    + intros Hno.
      destruct (IH _ _ Hno) as (pre & hit & post & entries & -> & Hpre & Hstop).
      exists (target :: pre), hit, post,
        (errorEntry target classified :: entries).
      repeat split; [|exact Hstop].
      constructor; [|exact Hpre]. exists error, classified. done.
    + intros _. exists [], target, rest, [].
      repeat split; [constructor|]. right. exists error, x. done.
Qed.

(** X10. When the check returns no report. The check stays pending
    exactly when some target's probe stays pending after every earlier
    target failed and was classified: one hanging probe hangs the whole
    check. It rejects exactly when some target's probe rejected with a
    value on which the classifier throws, after every earlier target
    failed and was classified. *)
Theorem check_without_report (w : World.t) :
  (checkPort25Connectivity w = Pending
   <-> exists pre target post entries,
         testTargets = pre ++ target :: post
         /\ Forall2 (failedWith w) pre entries
         /\ testSingleHost w (Target.host target) 5000 = Pending)
  /\ (forall x,
        checkPort25Connectivity w = Rejected x
        <-> exists pre target post entries error,
              testTargets = pre ++ target :: post
              /\ Forall2 (failedWith w) pre entries
              /\ testSingleHost w (Target.host target) 5000 = Rejected error
              /\ classifyPort25Error error = Throw x).
Proof.
  unfold checkPort25Connectivity.
  assert (Hstop : forall p,
            checkLoop w testTargets [] [] = p ->
            (forall report, p <> Fulfilled report) ->
            exists pre target post entries,
              testTargets = pre ++ target :: post
              /\ Forall2 (failedWith w) pre entries
              /\ (testSingleHost w (Target.host target) 5000 = Pending
                  /\ p = Pending
                  \/ exists error x,
                       testSingleHost w (Target.host target) 5000
                       = Rejected error
                       /\ classifyPort25Error error = Throw x
                       /\ p = Rejected x)).
  { intros p <- Hno. apply checkLoop_unfinished, Hno. }
  assert (Hrej : forall x,
            checkLoop w testTargets [] [] = Rejected x
            <-> exists pre target post entries error,
                  testTargets = pre ++ target :: post
                  /\ Forall2 (failedWith w) pre entries
                  /\ testSingleHost w (Target.host target) 5000
                     = Rejected error
                  /\ classifyPort25Error error = Throw x).
  { intros x. split.
    - intros Hx.
      destruct (Hstop _ Hx ltac:(discriminate))
        as (pre & target & post & entries & Hsplit & Hpre
            & [[_ [=]]|(error & x' & Hprobe & Hclass & [= <-])]).
      exists pre, target, post, entries, error. done.
    - intros (pre & target & post & entries & error & -> & Hpre & Hprobe
              & Hclass).
      rewrite (checkLoop_skip w pre entries Hpre). simpl.
      rewrite Hprobe, Hclass. reflexivity. }
  split; [|exact Hrej].
  split.
  - intros Hp.
    destruct (Hstop _ Hp ltac:(discriminate))
      as (pre & target & post & entries & Hsplit & Hpre
          & [[Hprobe _]|(error & x' & _ & _ & [=])]).
    exists pre, target, post, entries. done.
  - intros (pre & target & post & entries & -> & Hpre & Hprobe).
    rewrite (checkLoop_skip w pre entries Hpre). simpl.
    rewrite Hprobe. reflexivity.
Qed.

Lemma check_without_report_witness :
  checkPort25Connectivity silentWorld = Pending.
Proof.
  destruct (check_without_report silentWorld) as [[_ Hpending] _].
  apply Hpending.
  exists [Target.make (js "mxshield.brandnav.io") 1 (js "BrandNav")],
    (Target.make (js "gmail-smtp-in.l.google.com") 2 (js "Google")),
    [Target.make (js "mx-biz.mail.am0.yahoodns.net") 3 (js "Yahoo");
     Target.make (js "mail.protection.outlook.com") 4 (js "Microsoft");
     Target.make (js "mx1.zoho.com") 5 (js "Zoho")].
  eexists. split; [reflexivity|]. split; [|reflexivity].
  constructor; [|constructor].
  exists refused. eexists. split; [reflexivity|]. split; reflexivity.
Defined.

Lemma testTargets_hosts_NoDup : NoDup (Target.host <$> testTargets).
Proof. apply (bool_decide_unpack _). vm_compute. exact I. Qed.

(** X11. Every report the check returns is consistent: canVerifyEmails
    equals port25Open; error and recommendation are null exactly when
    port25Open is true, responseTime and smtpBanner are non-null exactly
    then; totalTime is the end reading minus the start reading of the
    clock; attemptedHosts lists between one and five hosts, none twice;
    and a report with port25Open false has the error 'All connection
    attempts failed', five attempted hosts and five errors. *)
Theorem report_consistent (w : World.t) (report : Report.t) :
  checkPort25Connectivity w = Fulfilled report ->
  Report.canVerifyEmails report = Report.port25Open report
  /\ (Report.error report = None <-> Report.port25Open report = true)
  /\ (Report.recommendation report = None
      <-> Report.port25Open report = true)
  /\ (is_Some (Report.responseTime report)
      <-> Report.port25Open report = true)
  /\ (is_Some (Report.smtpBanner report)
      <-> Report.port25Open report = true)
  /\ Report.totalTime report = (World.endTime w - World.startTime w)%Z
  /\ Report.timestamp report = World.timestamp w
  /\ 1 <= length (Report.attemptedHosts report) <= 5
  /\ NoDup (Report.attemptedHosts report)
  /\ (Report.port25Open report = false ->
      Report.error report = Some (js "All connection attempts failed")
      /\ length (Report.attemptedHosts report) = 5
      /\ length (Report.errors report) = 5).
Proof.
  intros Hcheck. apply check_fulfilled in Hcheck
    as [(pre & target & post & result & Hsplit & _ & _ & ->)
       |(entries & Hall & ->)];
    cbn [successReport failureReport Report.canVerifyEmails Report.port25Open
         Report.error Report.recommendation Report.responseTime
         Report.smtpBanner Report.totalTime Report.timestamp
         Report.attemptedHosts Report.errors].
  - assert (Hhosts : Target.host <$> testTargets
                     = (Target.host <$> (pre ++ [target]))
                       ++ (Target.host <$> post)).
    { rewrite Hsplit, !fmap_app, <- app_assoc. reflexivity. }
    pose proof testTargets_hosts_NoDup as Hnodup. rewrite Hhosts in Hnodup.
    apply NoDup_app in Hnodup as [Hnodup _].
    apply (f_equal length) in Hhosts.
    rewrite length_app, !length_fmap, length_app in Hhosts.
    rewrite length_fmap, length_app. simpl in *.
    repeat split; try done; try (intros _; eexists; reflexivity); try lia.
  - apply Forall2_length in Hall. rewrite length_fmap.
    repeat split; try done; try (intros [? [=]]);
      try (simpl; lia); try apply testTargets_hosts_NoDup.
Qed.

Lemma report_consistent_witness :
  exists report,
    checkPort25Connectivity (failingWorld notFound) = Fulfilled report
    /\ Report.canVerifyEmails report = Report.port25Open report
    /\ length (Report.errors report) = 5.
Proof.
  eexists. split; [reflexivity|].
  destruct (report_consistent (failingWorld notFound) _ eq_refl)
    as (Hcan & _ & _ & _ & _ & _ & _ & _ & _ & Hclosed).
  split; [exact Hcan|]. apply Hclosed. reflexivity.
Defined.

(** X12. A report with port25Open true names the target that greeted:
    testedHost and provider are the host and provider of one and the same
    target, that host is the last of attemptedHosts, smtpBanner starts
    with '220' and has no whitespace at either end, and smtpBanner and
    responseTime come from one data event of that host's socket (the
    trimmed chunk, and its clock reading minus the probe's start). *)
Theorem open_report_names_greeter (w : World.t) (report : Report.t) :
  checkPort25Connectivity w = Fulfilled report ->
  Report.port25Open report = true ->
  exists target banner (now : Z) (data : jsstring),
    target ∈ testTargets
    /\ Report.testedHost report = Some (Target.host target)
    /\ Report.provider report = Some (Target.provider target)
    /\ last (Report.attemptedHosts report) = Some (Target.host target)
    /\ Report.smtpBanner report = Some banner
    /\ startsWith banner (js "220") = true
    /\ trim banner = banner
    /\ (now, EvData data)
       ∈ Attempt.events (World.socket w (Target.host target) 5000)
    /\ banner = trim data
    /\ Report.responseTime report
       = Some (now - Attempt.startTime
                       (World.socket w (Target.host target) 5000))%Z.
Proof.
  intros Hcheck Hopen. apply check_fulfilled in Hcheck
    as [(pre & target & post & result & Hsplit & _ & Hhit & ->)
       |(entries & _ & ->)]; [|discriminate Hopen].
  destruct (testSingleHost_fulfilled _ _ _ _ Hhit)
    as (_ & now & data & Hin & Hstarts & ->).
  exists target, (trim data), now, data.
  cbn [successReport Report.testedHost Report.provider Report.attemptedHosts
       Report.smtpBanner Report.responseTime ProbeResult.banner
       ProbeResult.responseTime].
  repeat split; try done.
  - rewrite Hsplit. apply elem_of_middle.
  - rewrite fmap_app. apply last_snoc.
  - apply trim_id, trim_trimmed.
Qed.

Lemma open_report_names_greeter_witness :
  exists report target,
    checkPort25Connectivity fallbackWorld = Fulfilled report
    /\ target ∈ testTargets
    /\ Report.testedHost report = Some (Target.host target)
    /\ Report.provider report = Some (Target.provider target).
Proof.
  eexists.
  destruct (open_report_names_greeter fallbackWorld _ eq_refl eq_refl)
    as (target & banner & now & data & Hin & Hhost & Hprov & _).
  exists target. split; [reflexivity|]. split; [exact Hin|].
  split; [exact Hhost|exact Hprov].
Defined.

Lemma failedWith_entry (w : World.t) (target : Target.t) (entry : Entry.t) :
  failedWith w target entry ->
  Entry.host entry = Target.host target
  /\ Entry.provider entry = Target.provider target
  /\ exists error classified,
       classifyPort25Error error = Normal classified
       /\ Entry.error entry = Classified.errorCode classified
       /\ Entry.reason entry = Classified.reason classified
       /\ Entry.severity entry = Classified.severity classified
       /\ Entry.blocked entry = Classified.blocked classified.
Proof.
  intros (error & classified & _ & Hclass & ->).
  repeat split. exists error, classified. done.
Qed.

(** X13. Every entry of a returned errors list is well formed and belongs
    to its target: the entries carry, in order, the host and provider of
    the five targets; each has a non-empty error code, a non-empty reason
    and a severity among 'low', 'medium' and 'high'; blocked is false
    exactly when the severity is 'low', and blocked 'unknown' comes with
    severity 'medium'. *)
Theorem entries_wellformed (w : World.t) (report : Report.t) :
  checkPort25Connectivity w = Fulfilled report ->
  Forall (fun entry =>
            (exists code, Entry.error entry = Some code /\ code <> [])
            /\ Entry.reason entry <> []
            /\ Entry.severity entry ∈ severities
            /\ (Entry.blocked entry = BlockedFalse
                <-> Entry.severity entry = js "low")
            /\ (Entry.blocked entry = BlockedUnknown ->
                Entry.severity entry = js "medium"))
    (Report.errors report)
  /\ (Report.port25Open report = false ->
      (fun entry => (Entry.host entry, Entry.provider entry))
        <$> Report.errors report
      = (fun target => (Target.host target, Target.provider target))
          <$> testTargets).
Proof.
  intros Hcheck. apply check_fulfilled in Hcheck
    as [(pre & target & post & result & _ & _ & _ & ->)
       |(entries & Hall & ->)];
    cbn [successReport failureReport Report.errors Report.port25Open].
  { split; [constructor|discriminate]. }
  split; [|intros _]; induction Hall as [|t entry ts entries Hentry _ IH];
    try done.
  - constructor; [|exact IH].
    apply failedWith_entry in Hentry
      as (_ & _ & error & classified & Hclass & -> & -> & -> & ->).
    destruct (classify_cases _ _ Hclass)
      as [[Hcode ->]
         |[(_ & _ & ->)
          |[_ [[[Hcode|Hcode] ->]|[[Hcode ->]|[[Hcode ->]|[_ ->]]]]]]];
      cbn [Classified.errorCode Classified.reason Classified.severity
           Classified.blocked]; rewrite ?Hcode; wellformed_record.
  - rewrite !fmap_cons, IH.
    apply failedWith_entry in Hentry as (-> & -> & _). reflexivity.
Qed.

Lemma entries_wellformed_witness :
  exists report,
    checkPort25Connectivity (failingWorld notFound) = Fulfilled report
    /\ (fun entry => (Entry.host entry, Entry.provider entry))
         <$> Report.errors report
       = (fun target => (Target.host target, Target.provider target))
           <$> testTargets.
Proof.
  eexists. split; [reflexivity|].
  destruct (entries_wellformed (failingWorld notFound) _ eq_refl)
    as [_ Hpairs].
  apply Hpairs. reflexivity.
Defined.

Lemma classify_blocking (error : RawError.t) :
  blocking error ->
  exists classified,
    classifyPort25Error error = Normal classified
    /\ Classified.blocked classified = BlockedTrue.
Proof.
  intros Hblocking.
  assert (Hnormal : exists classified,
            classifyPort25Error error = Normal classified).
  { apply classify_normal_iff.
    destruct Hblocking as [?|[?|[(m & Hm & _)|[? _]]]]; eauto. }
  destruct Hnormal as [classified Hclass]. exists classified.
  split; [exact Hclass|].
  destruct (classify_cases _ _ Hclass)
    as [[_ ->]
       |[(_ & _ & ->)
        |[Hmsg [[_ ->]|[[Hcode ->]|[[Hcode ->]|[Hcode ->]]]]]]];
    try reflexivity; exfalso;
    destruct Hblocking as [H|[H|[H|[_ [H|H]]]]];
    try (destruct (timeout_flag_exclusive _ H Hmsg));
    try (rewrite Hcode in H; discriminate H);
    destruct (Hcode _ H); unfold recognisedCodes; repeat constructor.
Qed.

Lemma all_blocking_entries (w : World.t) (targets : list Target.t) :
  Forall (fun t => exists error,
            testSingleHost w (Target.host t) 5000 = Rejected error
            /\ blocking error) targets ->
  exists entries,
    Forall2 (failedWith w) targets entries
    /\ Forall (fun e => Entry.blocked e = BlockedTrue) entries.
Proof.
  induction 1 as [|t ts (error & Hprobe & Hblocking) _ (entries & Hall & Hb)].
  { exists []. split; constructor. }
  destruct (classify_blocking _ Hblocking) as (classified & Hclass & Htrue).
  exists (errorEntry t classified :: entries). split.
  - constructor; [|exact Hall]. exists error, classified. done.
  - constructor; [exact Htrue|exact Hb].
Qed.

(** X14. When every one of the five probes fails with an error the
    classifier reports as blocked (code ECONNREFUSED or ETIMEDOUT, with or
    without a message; a message containing 'timeout'; code ENETUNREACH or
    EHOSTUNREACH with a message), the check returns a report with
    port25Open false, five attempted hosts, five errors all with blocked
    true, and the recommendation 'Port 25 is blocked by your
    network/ISP...'. *)
Theorem all_blocked_report (w : World.t) :
  Forall (fun t => exists error,
            testSingleHost w (Target.host t) 5000 = Rejected error
            /\ blocking error) testTargets ->
  exists report,
    checkPort25Connectivity w = Fulfilled report
    /\ Report.port25Open report = false
    /\ Report.attemptedHosts report = Target.host <$> testTargets
    /\ length (Report.errors report) = 5
    /\ Forall (fun e => Entry.blocked e = BlockedTrue) (Report.errors report)
    /\ Report.recommendation report = Some blockedText
    /\ includes blockedText (js "Port 25 is blocked") = true.
Proof.
  intros Hall.
  destruct (all_blocking_entries w testTargets Hall) as (entries & Hf & Hb).
  exists (failureReport w (Target.host <$> testTargets) entries).
  split.
  { unfold checkPort25Connectivity.
    rewrite <- (app_nil_r testTargets) at 1.
    rewrite (checkLoop_skip w testTargets entries Hf). reflexivity. }
  cbn [failureReport Report.port25Open Report.attemptedHosts Report.errors
       Report.recommendation].
  repeat split; try done.
  - apply Forall2_length in Hf. rewrite <- Hf. reflexivity.
  - apply allBlocked_Forall in Hb. rewrite Hb. reflexivity.
Qed.

Lemma all_blocked_report_witness :
  exists report,
    checkPort25Connectivity (failingWorld refusedBare) = Fulfilled report
    /\ Report.recommendation report = Some blockedText.
Proof.
  destruct (all_blocked_report (failingWorld refusedBare))
    as (report & Hcheck & _ & _ & _ & _ & Hrec & _).
  - repeat (constructor;
            [exists refusedBare; split; [reflexivity|left; reflexivity]|]).
    constructor.
  - exists report. split; [exact Hcheck|exact Hrec].
Defined.

(** ** The dashboard *)

(** X15. However the dashboard stood before, once the request of
    checkPort25Status has settled the check is over: isCheckingPort25 is
    false and the status is not 'checking'; the status is 'open' exactly
    when the request resolved with port25Open true, 'closed' exactly when
    it resolved with port25Open false, 'unknown' exactly when it rejected,
    in which case one error toast is shown. While the request is pending
    the status is 'checking' and isCheckingPort25 is true. The logout
    state and the navigation are never touched. *)
Theorem check_status_outcome (st : Dashboard.t)
    (outcome : Promise Port25Result.t RawError.t) :
  (outcome = Pending ->
   Dashboard.isCheckingPort25 (checkPort25Status outcome st) = true
   /\ Dashboard.port25Status (checkPort25Status outcome st) = StatusChecking)
  /\ (settled outcome = true ->
      Dashboard.isCheckingPort25 (checkPort25Status outcome st) = false
      /\ Dashboard.port25Status (checkPort25Status outcome st)
         <> StatusChecking)
  /\ (Dashboard.port25Status (checkPort25Status outcome st) = StatusOpen
      <-> exists result, outcome = Fulfilled result
                         /\ Port25Result.port25Open result = true)
  /\ (Dashboard.port25Status (checkPort25Status outcome st) = StatusClosed
      <-> exists result, outcome = Fulfilled result
                         /\ Port25Result.port25Open result = false)
  /\ (Dashboard.port25Status (checkPort25Status outcome st) = StatusUnknown
      <-> exists error, outcome = Rejected error)
  /\ (Dashboard.toasts (checkPort25Status outcome st)
      = Dashboard.toasts st
        ++ (if isRejected outcome
            then [ToastError (js "Unable to check port 25 connectivity")]
            else []))
  /\ Dashboard.isLoggingOut (checkPort25Status outcome st)
     = Dashboard.isLoggingOut st
  /\ Dashboard.navigations (checkPort25Status outcome st)
     = Dashboard.navigations st.
Proof.
  destruct outcome as [|[[] [[|c text]|]]|error]; cbn -[js];
    rewrite ?app_nil_r;
    repeat split; try done; try discriminate;
    try (intros _; eexists; split; reflexivity);
    try (intros _; eexists; reflexivity);
    try (intros (? & [= <-] & [=])); try (intros (? & [=] & ?));
    try (intros (? & [=])).
Qed.

Lemma check_status_outcome_witness :
  Dashboard.isCheckingPort25
    (checkPort25Status (Rejected bare) mounted) = false
  /\ Dashboard.port25Status (checkPort25Status (Rejected bare) mounted)
     <> StatusChecking.
Proof.
  destruct (check_status_outcome mounted (Rejected bare)) as (_ & Hset & _).
  apply Hset. reflexivity.
Defined.

(** X16. What the warning banner shows after checkPort25Status: nothing
    when the request resolved with port25Open true or rejected; the
    recommendation when it resolved with port25Open false and a non-empty
    recommendation; and when it resolved with port25Open false and a null
    or empty recommendation, whatever the banner showed before the check,
    unchanged. Dismissing hides the banner and keeps everything else. *)
Theorem banner_after_check (st : Dashboard.t) :
  (forall result,
     Port25Result.port25Open result = true ->
     renderedBanner (checkPort25Status (Fulfilled result) st) = None)
  /\ (forall error,
        renderedBanner (checkPort25Status (Rejected error) st) = None)
  /\ (forall result text,
        Port25Result.port25Open result = false ->
        Port25Result.recommendation result = Some text ->
        text <> [] ->
        renderedBanner (checkPort25Status (Fulfilled result) st) = Some text)
  /\ (forall result,
        Port25Result.port25Open result = false ->
        Port25Result.recommendation result = None
        \/ Port25Result.recommendation result = Some [] ->
        renderedBanner (checkPort25Status (Fulfilled result) st)
        = renderedBanner st)
  /\ renderedBanner (handleDismissWarning st) = None
  /\ handleDismissWarning st = setShowWarningBanner false st.
Proof.
  split; [intros [[] rec] [=]; reflexivity|].
  split; [reflexivity|].
  split; [intros [[] rec] text [=] [= ->] Htext; destruct text; done|].
  split; [intros [[] rec] [=] [[= ->]|[= ->]]; reflexivity|].
  split; reflexivity.
Qed.

Lemma banner_after_check_witness :
  renderedBanner
    (checkPort25Status (Fulfilled (Port25Result.make false (Some dnsText)))
       mounted)
  = Some dnsText.
Proof.
  destruct (banner_after_check mounted) as (_ & _ & Hshown & _).
  apply (Hshown (Port25Result.make false (Some dnsText)) dnsText).
  - reflexivity.
  - reflexivity.
  - discriminate.
Defined.

(** X17. The check and the dashboard together: when the request resolves
    with the port25Open and recommendation of a report that
    checkPort25Connectivity returned, the dashboard ends with the check
    over; with status 'open' and no banner when the report has port25Open
    true; and with status 'closed' and the banner showing the report's
    recommendation, one of the three recommendation texts, when it has
    port25Open false. A closed port never goes without its banner. *)
Theorem dashboard_shows_report (w : World.t) (report : Report.t)
    (st : Dashboard.t) :
  checkPort25Connectivity w = Fulfilled report ->
  Dashboard.isCheckingPort25
    (checkPort25Status (Fulfilled (resultOfReport report)) st) = false
  /\ (Report.port25Open report = true ->
      Dashboard.port25Status
        (checkPort25Status (Fulfilled (resultOfReport report)) st)
      = StatusOpen
      /\ renderedBanner
           (checkPort25Status (Fulfilled (resultOfReport report)) st)
         = None)
  /\ (Report.port25Open report = false ->
      Dashboard.port25Status
        (checkPort25Status (Fulfilled (resultOfReport report)) st)
      = StatusClosed
      /\ exists text,
           Report.recommendation report = Some text
           /\ text ∈ [blockedText; unknownText; dnsText]
           /\ renderedBanner
                (checkPort25Status (Fulfilled (resultOfReport report)) st)
              = Some text).
Proof.
  intros Hcheck. apply check_fulfilled in Hcheck
    as [(pre & target & post & result & _ & _ & _ & ->)
       |(entries & _ & ->)].
  - split; [reflexivity|]. split; [intros _; split; reflexivity|discriminate].
  - unfold resultOfReport, failureReport.
    cbn [Report.port25Open Report.recommendation].
    destruct (forallb _ entries); [|destruct (existsb _ entries)];
      (split; [reflexivity|]); (split; [discriminate|]); intros _;
      (split; [reflexivity|]); eexists; (split; [reflexivity|]);
      (split; [rewrite !elem_of_cons; auto|reflexivity]).
Qed.

Lemma dashboard_shows_report_witness :
  exists report,
    checkPort25Connectivity (failingWorld notFound) = Fulfilled report
    /\ renderedBanner
         (checkPort25Status (Fulfilled (resultOfReport report)) mounted)
       = Some dnsText.
Proof.
  eexists. split; [reflexivity|].
  destruct (dashboard_shows_report (failingWorld notFound) _ mounted eq_refl)
    as (_ & _ & Hclosed).
  destruct (Hclosed eq_refl) as (_ & text & Hrec & _ & Hbanner).
  injection Hrec as <-. exact Hbanner.
Defined.

Lemma act_coherent (st : Dashboard.t) (a : Action) :
  coherent st -> coherent (act st a).
Proof.
  unfold coherent. intros [Hbadge Hbanner].
  destruct a as [[|[[] [[|c text]|]]|error]| |[| |]]; cbn -[js];
    (split; [first [exact Hbadge|split; discriminate|split; reflexivity]|]);
    try discriminate; try exact Hbanner;
    try (intros _; split; [discriminate|auto]);
    intros Hshown; destruct (Hbanner Hshown) as [Hmsg _]; auto.
Qed.

Lemma spinner_iff_checking (status : Port25Status) :
  BadgeConfig.iconClass (getBadgeConfig status) = js "animate-spin"
  <-> status = StatusChecking.
Proof. destruct status; split; done. Qed.

(** X18. Through any sequence of complete handler runs after mounting
    (checks with any outcome, dismissals, logouts) the dashboard stays
    coherent: the badge is disabled exactly while the status is
    'checking', which is exactly while its icon spins; and whenever the
    warning banner is rendered its message is non-empty and the status is
    'closed' or 'checking', never 'open' or 'unknown'. *)
Theorem dashboard_coherent (actions : list Action) :
  ((renderedBadge (dashboardAfter actions)).2 = true
   <-> BadgeConfig.iconClass (renderedBadge (dashboardAfter actions)).1
       = js "animate-spin")
  /\ ((renderedBadge (dashboardAfter actions)).2 = true
      <-> Dashboard.port25Status (dashboardAfter actions) = StatusChecking)
  /\ (forall text,
        renderedBanner (dashboardAfter actions) = Some text ->
        text <> []
        /\ (Dashboard.port25Status (dashboardAfter actions) = StatusClosed
            \/ Dashboard.port25Status (dashboardAfter actions)
               = StatusChecking)).
Proof.
  assert (Hinv : coherent (dashboardAfter actions)).
  { unfold dashboardAfter.
    assert (Hgen : forall st, coherent st -> coherent (foldl act st actions)).
    { induction actions as [|a actions IH]; intros st Hst; [exact Hst|].
      simpl. apply IH, act_coherent, Hst. }
    apply Hgen. split; [split; discriminate|discriminate]. }
  destruct Hinv as [Hbadge Hbanner]. unfold renderedBadge, renderedBanner.
  cbn [fst snd]. split; [rewrite spinner_iff_checking; exact Hbadge|].
  split; [exact Hbadge|].
  intros text.
  destruct (Dashboard.showWarningBanner (dashboardAfter actions));
    [|discriminate].
  intros [= <-]. apply Hbanner. reflexivity.
Qed.

Lemma dashboard_coherent_witness :
  renderedBanner
    (dashboardAfter
       [RunCheck (Fulfilled (Port25Result.make false (Some dnsText)));
        RunCheck Pending])
  = Some dnsText
  /\ Dashboard.port25Status
       (dashboardAfter
          [RunCheck (Fulfilled (Port25Result.make false (Some dnsText)));
           RunCheck Pending])
     = StatusChecking.
Proof.
  destruct (dashboard_coherent
              [RunCheck (Fulfilled (Port25Result.make false (Some dnsText)));
               RunCheck Pending]) as (_ & _ & Hbanner).
  destruct (Hbanner dnsText eq_refl) as [_ [Hclosed|Hchecking]].
  - discriminate Hclosed.
  - split; [reflexivity|exact Hchecking].
Defined.

Lemma startsWith_prefix (s p : jsstring) :
  startsWith s p = true <-> exists rest, s = p ++ rest.
Proof.
  revert s. induction p as [|c p IH]; intros s; simpl.
  { split; [intros _; exists s; reflexivity|destruct s; reflexivity]. }
  destruct s as [|d s].
  { split; [discriminate|intros [rest [=]]]. }
  simpl. rewrite andb_true_iff, N.eqb_eq, IH. split.
  - intros [-> [rest ->]]. exists rest. reflexivity.
  - intros [rest [= -> ->]]. eauto.
Qed.

(** X19. A navigation link is active exactly on its own path and on the
    paths below it: isActiveRoute holds exactly when the pathname is the
    path itself or the path followed by '/' and anything. A pathname that
    merely continues the path's last segment does not activate it, and no
    pathname activates both '/api-tokens' and '/history'. *)
Theorem active_route (pathname path : jsstring) :
  (isActiveRoute pathname path = true
   <-> pathname = path \/ exists rest, pathname = path ++ js "/" ++ rest)
  /\ (forall c rest,
        c <> 47%N -> isActiveRoute (path ++ c :: rest) path = false)
  /\ ~ (isActiveRoute pathname (js "/api-tokens") = true
        /\ isActiveRoute pathname (js "/history") = true).
Proof.
  assert (Hiff : forall p q,
            isActiveRoute p q = true
            <-> p = q \/ exists rest, p = q ++ js "/" ++ rest).
  { intros p q. unfold isActiveRoute.
    rewrite orb_true_iff, bool_decide_eq_true, startsWith_prefix.
    split; (intros [?|[rest Hrest]]; [left; done|right; exists rest]);
      rewrite Hrest, <- ?app_assoc; rewrite ?app_assoc; reflexivity. }
  split; [apply Hiff|]. split.
  - intros c rest Hc. apply not_true_is_false. rewrite Hiff.
    intros [Heq|[rest' Heq]].
    + rewrite <- (app_nil_r path) in Heq at 2.
      apply app_inv_head in Heq. discriminate.
    + apply app_inv_head in Heq. injection Heq as -> _. done.
  - rewrite !Hiff. intros [[->|[rest ->]] [H|[rest' H]]]; discriminate.
Qed.

Lemma active_route_witness :
  isActiveRoute (js "/api-tokens-old") (js "/api-tokens") = false.
Proof.
  destruct (active_route (js "/api-tokens-old") (js "/api-tokens"))
    as (_ & Hsibling & _).
  apply (Hsibling 45%N (js "old")). discriminate.
Defined.

(** X20. handleLogout once the logout request has settled: isLoggingOut
    is false again and exactly one toast was shown; the dashboard
    navigates, to '/login', exactly when the request resolved, with the
    success toast; when it rejected it shows the failure toast, logs the
    error and stays where it is. The port-25 state is never touched. While
    the request is pending isLoggingOut is true and nothing else has
    changed. *)
Theorem logout_outcome (st : Dashboard.t) (outcome : Promise unit RawError.t) :
  (settled outcome = true ->
   Dashboard.isLoggingOut (handleLogout outcome st) = false
   /\ exists t, Dashboard.toasts (handleLogout outcome st)
                = Dashboard.toasts st ++ [t])
  /\ (Dashboard.navigations (handleLogout outcome st)
      = Dashboard.navigations st
        ++ (if isRejected outcome || negb (settled outcome) then []
            else [js "/login"]))
  /\ ((exists u, outcome = Fulfilled u) ->
      Dashboard.toasts (handleLogout outcome st)
      = Dashboard.toasts st ++ [ToastSuccess (js "Logged out successfully")]
      /\ Dashboard.errorLog (handleLogout outcome st) = Dashboard.errorLog st)
  /\ ((exists error, outcome = Rejected error) ->
      Dashboard.toasts (handleLogout outcome st)
      = Dashboard.toasts st
        ++ [ToastError (js "Logout failed. Please try again.")]
      /\ Dashboard.errorLog (handleLogout outcome st)
         = Dashboard.errorLog st ++ [js "Error during logout:"])
  /\ (outcome = Pending ->
      handleLogout outcome st = setIsLoggingOut true st)
  /\ Dashboard.port25Status (handleLogout outcome st)
     = Dashboard.port25Status st
  /\ Dashboard.isCheckingPort25 (handleLogout outcome st)
     = Dashboard.isCheckingPort25 st
  /\ renderedBanner (handleLogout outcome st) = renderedBanner st.
Proof.
  destruct outcome as [|u|error]; cbn -[js]; rewrite ?app_nil_r;
    repeat split; try done; try (eexists; reflexivity);
    match goal with H : exists _, _ = _ |- _ => destruct H as [? [=]] end.
Qed.

Lemma logout_outcome_witness :
  Dashboard.navigations (handleLogout (Fulfilled tt) mounted) = [js "/login"]
  /\ Dashboard.isLoggingOut (handleLogout (Fulfilled tt) mounted) = false.
Proof.
  destruct (logout_outcome mounted (Fulfilled tt))
    as (Hsettled & Hnav & _).
  split; [exact Hnav|]. apply Hsettled. reflexivity.
Defined.

(** X21. The badge tells the four statuses apart: two different statuses
    never get the same label, the same icon, or the same background, text
    or border colour, and only 'checking' gets an icon class. *)
Theorem badge_distinguishes (s1 s2 : Port25Status) :
  (BadgeConfig.label (getBadgeConfig s1) = BadgeConfig.label (getBadgeConfig s2)
   -> s1 = s2)
  /\ (BadgeConfig.icon (getBadgeConfig s1) = BadgeConfig.icon (getBadgeConfig s2)
      -> s1 = s2)
  /\ (BadgeConfig.bgColor (getBadgeConfig s1)
      = BadgeConfig.bgColor (getBadgeConfig s2) -> s1 = s2)
  /\ (BadgeConfig.textColor (getBadgeConfig s1)
      = BadgeConfig.textColor (getBadgeConfig s2) -> s1 = s2)
  /\ (BadgeConfig.borderColor (getBadgeConfig s1)
      = BadgeConfig.borderColor (getBadgeConfig s2) -> s1 = s2)
  /\ (BadgeConfig.iconClass (getBadgeConfig s1) <> [] <-> s1 = StatusChecking).
Proof.
  destruct s1, s2; repeat split; try done; try discriminate.
Qed.

Lemma badge_distinguishes_witness :
  BadgeConfig.iconClass (getBadgeConfig StatusChecking) <> [].
Proof.
  destruct (badge_distinguishes StatusChecking StatusOpen)
    as (_ & _ & _ & _ & _ & Hspin).
  apply Hspin. reflexivity.
Defined.
